(** * scirpy.datasets: normalisation of VDJDB and IEDB exports

    A shallow embedding of [scirpy/datasets/__init__.py]: the two database
    loaders [vdjdb] and [iedb], their per-row normalisers and the
    cache-or-fetch prologue they share.

    Python scalars are the type [value]; a pandas row, a chain dictionary and
    the cell-level attributes of an [AirrCell] are finite maps from column or
    field names to scalars.  A subscript on a missing key raises, so every
    function that subscripts returns in the error monad [result]. *)

From Stdlib Require Import ZArith Ascii String.
From stdpp Require Import gmap strings list fin_maps pretty.

Local Open Scope string_scope.
Local Open Scope list_scope.

(** ** Scalars and exceptions *)

(** What a dataframe entry or a dictionary value can hold.  [VNull] stands for
    both [None] and [NaN]: [pd.isnull] does not tell them apart. *)
Inductive value : Type :=
| VNull
| VStr (s : string)
| VInt (z : Z)
| VBool (b : bool).

#[global] Instance value_eq_dec : EqDecision value.
Proof. solve_decision. Defined.

(** [pd.isnull] on a scalar. *)
Definition isnull (v : value) : bool :=
  match v with VNull => true | _ => false end.

(** The exception classes that occur; [FileNotFoundError] and
    [PermissionError] are subclasses of [OSError]. *)
Inductive exn : Type :=
| KeyError (k : value)
| IndexError
| ValueError (msg : string)
| AttributeError (msg : string)
| OSError (msg : string)
| FileNotFoundError (msg : string)
| PermissionError (msg : string).

(** [isinstance(e, OSError)], the test of an [except OSError] clause. *)
Definition is_OSError (e : exn) : bool :=
  match e with
  | OSError _ | FileNotFoundError _ | PermissionError _ => true
  | _ => false
  end.

Inductive result (A : Type) : Type :=
| Ok (a : A)
| Raise (e : exn).
Arguments Ok {A} a.
Arguments Raise {A} e.

#[global] Instance result_ret : MRet result := λ A a, Ok a.
#[global] Instance result_bind : MBind result := λ A B f m,
  match m with Ok a => f a | Raise e => Raise e end.

(** A [for] loop that threads an accumulator and stops at the first raise. *)
Fixpoint foldlM {A B} (f : A → B → result A) (a : A) (l : list B) : result A :=
  match l with
  | [] => Ok a
  | b :: l' => a' ← f a b; foldlM f a' l'
  end.

(** A loop that collects one result per element. *)
Fixpoint traverse {A B} (f : A → result B) (l : list A) : result (list B) :=
  match l with
  | [] => Ok []
  | a :: l' => b ← f a; bs ← traverse f l'; Ok (b :: bs)
  end.

(** ** Rows and dataframes *)

(** A row maps column names to scalars.  [row[k]]: *)
Definition getitem (d : gmap string value) (k : string) : result value :=
  match d !! k with
  | Some v => Ok v
  | None => Raise (KeyError (VStr k))
  end.

(** A dataframe is the list of its rows, in order, each with its index label. *)
Definition DataFrame : Type := list (nat * gmap string value).

(** The frame [pd.read_csv] builds from parsed records: a [RangeIndex]. *)
Definition read_csv_frame (records : list (gmap string value)) : DataFrame :=
  imap (λ i r, (i, r)) records.

(** Does the row carry every column of [cols]? *)
Definition has_columns (cols : list string) (row : gmap string value) : bool :=
  forallb (λ c, bool_decide (is_Some (row !! c))) cols.
Arguments has_columns : simpl never.

(** ** AirrCell *)

(** Modelled from the spec: the class [AirrCell] of [scirpy.io._datastructures]
    is not part of these sources.  Per the data model a cell has an identifier,
    an ordered collection of chain records and a mapping of scalar metadata
    fields with unique keys. *)
Record AirrCell : Type := mkAirrCell {
  cell_id : value;
  chains : list (gmap string value);
  cell_attrs : gmap string value
}.

(** Modelled from the spec: the constructor [AirrCell(cell_id=...)], a cell
    with no chain and no metadata yet. *)
Definition new_cell (id : value) : AirrCell :=
  {| cell_id := id; chains := []; cell_attrs := ∅ |}.

(** Modelled from the spec: the fixed field set of a chain record (locus,
    junction_aa, junction, v_call, d_call, j_call, consensus_count,
    productive). *)
Definition CHAIN_FIELDS : list string :=
  ["locus"; "junction_aa"; "junction"; "v_call"; "d_call"; "j_call";
   "consensus_count"; "productive"].

(** Modelled from the spec: [AirrCell.empty_chain_dict()], the full field set
    with every value an explicit null. *)
Definition empty_chain_dict : gmap string value :=
  list_to_map ((λ f, (f, VNull)) <$> CHAIN_FIELDS).

(** Modelled from the spec: [AirrCell.add_chain], chains are kept in the order
    in which the row normaliser adds them. *)
Definition add_chain (chain : gmap string value) (cell : AirrCell) : AirrCell :=
  {| cell_id := cell_id cell;
     chains := (chains cell ++ [chain])%list;
     cell_attrs := cell_attrs cell |}.

(** Modelled from the spec: [cell[k] = v], the metadata mapping takes the
    value under the key. *)
Definition setitem (k : string) (v : value) (cell : AirrCell) : AirrCell :=
  {| cell_id := cell_id cell;
     chains := chains cell;
     cell_attrs := <[k := v]> (cell_attrs cell) |}.

(** [d.update({k1: v1, ...})] of a Python dict, the literal's entries in
    order. *)
Definition update (d : gmap string value) (kvs : list (string * value))
  : gmap string value :=
  foldl (λ d kv, <[kv.1 := kv.2]> d) d kvs.

(** ** VDJDB *)

Definition INCLUDE_CELL_METADATA_FIELDS : list string :=
  ["species";
   "mhc.a";
   "mhc.b";
   "mhc.class";
   "antigen.epitope";
   "antigen.gene";
   "antigen.species";
   "reference.id";
   "method.identification";
   "method.frequency";
   "method.singlecell";
   "method.sequencing";
   "method.verification";
   "meta.study.id";
   "meta.cell.subset";
   "meta.subject.cohort";
   "meta.subject.id";
   "meta.replica.id";
   "meta.clone.id";
   "meta.epitope.id";
   "meta.tissue";
   "meta.donor.MHC";
   "meta.donor.MHC.method";
   "meta.structure.id";
   "vdjdb.score"].

(** The body of the loop over [df.iterrows()] in [vdjdb]. *)
Definition vdjdb_row (idx : nat) (row : gmap string value) : result AirrCell :=
  let cell := new_cell (VStr (pretty idx)) in
  cdr3_alpha ← getitem row "cdr3.alpha";
  cell ←
    (if negb (isnull cdr3_alpha) then
       junction_aa ← getitem row "cdr3.alpha";
       v_call ← getitem row "v.alpha";
       j_call ← getitem row "j.alpha";
       let alpha_chain :=
         update empty_chain_dict
           [("locus", VStr "TRA");
            ("junction_aa", junction_aa);
            ("v_call", v_call);
            ("j_call", j_call);
            ("consensus_count", VInt 0);
            ("productive", VBool true)] in
       Ok (add_chain alpha_chain cell)
     else Ok cell);
  cdr3_beta ← getitem row "cdr3.beta";
  cell ←
    (if negb (isnull cdr3_beta) then
       junction_aa ← getitem row "cdr3.beta";
       v_call ← getitem row "v.beta";
       d_call ← getitem row "d.beta";
       j_call ← getitem row "j.beta";
       let beta_chain :=
         update empty_chain_dict
           [("locus", VStr "TRB");
            ("junction_aa", junction_aa);
            ("v_call", v_call);
            ("d_call", d_call);
            ("j_call", j_call);
            ("consensus_count", VInt 0);
            ("productive", VBool true)] in
       Ok (add_chain beta_chain cell)
     else Ok cell);
  foldlM (λ cell f, v ← getitem row f; Ok (setitem f v cell))
         cell INCLUDE_CELL_METADATA_FIELDS.

(** The whole loop: [tcr_cells] after the last row. *)
Definition vdjdb_cells (df : DataFrame) : result (list AirrCell) :=
  traverse (λ ir, vdjdb_row ir.1 ir.2) df.

(** The columns of [vdjdb_full.txt] that the loop body subscripts. *)
Definition VDJDB_COLUMNS : list string :=
  ["cdr3.alpha"; "v.alpha"; "j.alpha"; "cdr3.beta"; "v.beta"; "d.beta"; "j.beta"]
  ++ INCLUDE_CELL_METADATA_FIELDS.

(** ** String helpers *)

(** [s.replace(old, new)] for a non-empty [old]: every occurrence, left to
    right, without overlap.  [skip] counts the characters of a match still to
    be dropped. *)
Fixpoint str_replace_go (old new : string) (skip : nat) (s : string) : string :=
  match s with
  | EmptyString => EmptyString
  | String c s' =>
      match skip with
      | S k => str_replace_go old new k s'
      | O =>
          if String.prefix old s
          then new +:+ str_replace_go old new (String.length old - 1) s'
          else String c (str_replace_go old new 0 s')
      end
  end.

Definition str_replace (old new s : string) : string :=
  str_replace_go old new 0 s.

(** ** The string methods of pandas and Python

    [Series.str] accepts a column or raises [AttributeError]; pandas decides
    by the dtype it keeps for the column (a column read from empty fields
    only is [float64] and is refused, a column that holds a string is
    [object] and is accepted).  [str.upper] is Python's, which knows all of
    Unicode.  Both belong to the libraries and are parameters here:
    [str_accessor_accepts df c] tells whether [df[c].str] is accepted for the
    frame as it stands. *)
Record StringMethods : Type := {
  str_accessor_accepts : DataFrame → string → bool;
  str_upper : string → string
}.

(** One entry of [Series.str.upper()]: a string is upper-cased, anything else
    (a null in particular) comes out as a null. *)
Definition str_upper_value (sm : StringMethods) (v : value) : value :=
  match v with
  | VStr s => VStr (str_upper sm s)
  | _ => VNull
  end.

(** Upper-casing of a string of ASCII characters: the letters a-z become A-Z,
    every other character stays. *)
Definition ascii_upper (c : ascii) : ascii :=
  let n := nat_of_ascii c in
  if (97 <=? n)%nat && (n <=? 122)%nat then ascii_of_nat (n - 32) else c.

Fixpoint ascii_str_upper (s : string) : string :=
  match s with
  | EmptyString => EmptyString
  | String c s' => String (ascii_upper c) (ascii_str_upper s')
  end.

(** Is every character of the string an ASCII character? *)
Fixpoint is_ascii (s : string) : bool :=
  match s with
  | EmptyString => true
  | String c s' => (nat_of_ascii c <? 128)%nat && is_ascii s'
  end.

(** ** IEDB: preprocessing of the table *)

(** [df.drop_duplicates(...)] with the default [keep="first"]: a row is
    dropped when an earlier row has the same key; nulls compare equal. *)
Fixpoint drop_duplicates_go {K : Type} `{EqDecision K}
    (key : gmap string value → result K) (seen : list K) (df : DataFrame)
  : result DataFrame :=
  match df with
  | [] => Ok []
  | ir :: rest =>
      k ← key ir.2;
      if decide (k ∈ seen) then drop_duplicates_go key seen rest
      else rest' ← drop_duplicates_go key (k :: seen) rest; Ok (ir :: rest')
  end.

(** The key of a row under [subset]: its values in these columns. *)
Definition subset_key (subset : list string) (row : gmap string value)
  : result (list value) :=
  traverse (getitem row) subset.

(** [df.drop_duplicates()] compares whole rows, [df.drop_duplicates(subset)]
    the columns of [subset]. *)
Definition drop_duplicates (subset : option (list string)) (df : DataFrame)
  : result DataFrame :=
  match subset with
  | None => drop_duplicates_go (λ row, Ok row) [] df
  | Some cols => drop_duplicates_go (subset_key cols) [] df
  end.

Definition DEDUP_SUBSET : list string :=
  ["Chain 1 CDR3 Curated";
   "Chain 2 CDR3 Curated";
   "Organism";
   "Antigen";
   "Response Type";
   "Chain 1 Type";
   "Chain 2 Type"].

(** [df.loc[df[input].isna(), input] = df[calculated]]: index labels are
    unique, so the aligned assignment works row by row. *)
Definition fillna_from (input calculated : string) (df : DataFrame)
  : result DataFrame :=
  traverse (λ ir : nat * gmap string value,
              calc ← getitem ir.2 calculated;
              cur ← getitem ir.2 input;
              Ok (ir.1, if isnull cur then <[input := calc]> ir.2 else ir.2))
           df.

Section Preprocessing.

Variable sm : StringMethods.

(** [df[input] = df[input].str.upper()]: the column is subscripted, [.str]
    accepts it or raises, and the upper-cased entries are assigned. *)
Definition str_upper_column (input : string) (df : DataFrame) : result DataFrame :=
  _ ← traverse (λ ir : nat * gmap string value, getitem ir.2 input) df;
  if str_accessor_accepts sm df input
  then traverse (λ ir : nat * gmap string value,
                   v ← getitem ir.2 input;
                   Ok (ir.1, <[input := str_upper_value sm v]> ir.2))
                df
  else Raise (AttributeError "Can only use .str accessor with string values!").

(** The local function [replace_curated] of [iedb]; the dataframe it closes
    over is passed and returned. *)
Definition replace_curated (input_1 input_2 : string) (iedb_df : DataFrame)
  : result DataFrame :=
  let calculated_1 := str_replace "Curated" "Calculated" input_1 in
  iedb_df ← fillna_from input_1 calculated_1 iedb_df;
  iedb_df ← str_upper_column input_1 iedb_df;
  let calculated_2 := str_replace "Curated" "Calculated" input_2 in
  iedb_df ← fillna_from input_2 calculated_2 iedb_df;
  str_upper_column input_2 iedb_df.

End Preprocessing.

(** [df["cell_id"] = df.reset_index(drop=True).index]: the position of the
    row in the frame as it is at this point. *)
Definition assign_cell_id (df : DataFrame) : DataFrame :=
  imap (λ pos ir, (ir.1, <["cell_id" := VInt (Z.of_nat pos)]> ir.2)) df.

Definition accepted_chains : list string :=
  ["alpha"; "beta"; "heavy"; "light"; "gamma"; "delta"].

(** One entry of [Series.isin(values)]. *)
Definition isin (values : list string) (v : value) : bool :=
  match v with
  | VStr s => bool_decide (s ∈ values)
  | _ => false
  end.

(** [df[df["Chain 1 Type"].isin(accepted) & df["Chain 2 Type"].isin(accepted)]] *)
Fixpoint filter_accepted (df : DataFrame) : result DataFrame :=
  match df with
  | [] => Ok []
  | ir :: rest =>
      t1 ← getitem ir.2 "Chain 1 Type";
      t2 ← getitem ir.2 "Chain 2 Type";
      rest' ← filter_accepted rest;
      Ok (if isin accepted_chains t1 && isin accepted_chains t2
          then ir :: rest' else rest')
  end.

(** Everything [iedb] does to the table before the loop over its rows. *)
Definition iedb_preprocess (sm : StringMethods) (iedb_df : DataFrame)
  : result DataFrame :=
  iedb_df ← drop_duplicates None iedb_df;
  iedb_df ← drop_duplicates (Some DEDUP_SUBSET) iedb_df;
  iedb_df ← replace_curated sm "Chain 1 CDR3 Curated" "Chain 2 CDR3 Curated" iedb_df;
  iedb_df ← replace_curated sm "Curated Chain 1 V Gene" "Curated Chain 2 V Gene" iedb_df;
  iedb_df ← replace_curated sm "Curated Chain 1 D Gene" "Curated Chain 2 D Gene" iedb_df;
  iedb_df ← replace_curated sm "Curated Chain 1 J Gene" "Curated Chain 2 J Gene" iedb_df;
  let iedb_df := assign_cell_id iedb_df in
  filter_accepted iedb_df.

(** ** IEDB: one row *)

Definition receptor_dict : gmap string value :=
  list_to_map
    [("alpha", VStr "TRA");
     ("beta", VStr "TRB");
     ("heavy", VStr "IGH");
     ("light", VNull);
     ("gamma", VStr "TRG");
     ("delta", VStr "TRD")].

(** [receptor_dict[k]] for a scalar [k]. *)
Definition receptor_dict_getitem (k : value) : result value :=
  match k with
  | VStr s => getitem receptor_dict s
  | _ => Raise (KeyError k)
  end.

Section Iedb.

(** [_infer_locus_from_gene_names(chain_dict, keys=...)] of [scirpy.io._io]
    is not part of these sources; per the spec it is a pure function of the
    chain's gene-name fields and the keys, returning a locus code or null. *)
Variable _infer_locus_from_gene_names :
  gmap string value → list string → value.

(** The body of [for chain_dict in [chain1, chain2]]. *)
Definition add_resolved (cell : AirrCell) (chain_dict : gmap string value)
  : result AirrCell :=
  locus ← getitem chain_dict "locus";
  let chain_dict :=
    if isnull locus
    then <["locus" := _infer_locus_from_gene_names
                        chain_dict ["v_call"; "d_call"; "j_call"]]> chain_dict
    else chain_dict in
  Ok (add_chain chain_dict cell).

(** The body of the loop over [iedb_df.iterrows()]. *)
Definition iedb_row (row : gmap string value) : result AirrCell :=
  id ← getitem row "cell_id";
  let cell := new_cell id in
  let chain1 := empty_chain_dict in
  let chain2 := empty_chain_dict in
  v ← getitem row "Receptor ID"; let cell := setitem "Receptor ID" v cell in
  v ← getitem row "Antigen"; let cell := setitem "Antigen" v cell in
  v ← getitem row "Organism"; let cell := setitem "Organism" v cell in
  v ← getitem row "Response Type"; let cell := setitem "Response Type" v cell in
  v ← getitem row "Reference IRI"; let cell := setitem "Reference IRI" v cell in
  v ← getitem row "Epitope IRI"; let cell := setitem "Epitope IRI" v cell in
  type1 ← getitem row "Chain 1 Type";
  locus1 ← receptor_dict_getitem type1;
  junction_aa1 ← getitem row "Chain 1 CDR3 Curated";
  v_call1 ← getitem row "Curated Chain 1 V Gene";
  j_call1 ← getitem row "Curated Chain 1 J Gene";
  let chain1 :=
    update chain1
      [("locus", locus1);
       ("junction_aa", junction_aa1);
       ("junction", VNull);
       ("consensus_count", VNull);
       ("v_call", v_call1);
       ("d_call", VNull);
       ("j_call", j_call1);
       ("productive", VBool true)] in
  type2 ← getitem row "Chain 2 Type";
  locus2 ← receptor_dict_getitem type2;
  junction_aa2 ← getitem row "Chain 2 CDR3 Curated";
  v_call2 ← getitem row "Curated Chain 2 V Gene";
  d_call2 ← getitem row "Curated Chain 2 D Gene";
  j_call2 ← getitem row "Curated Chain 2 J Gene";
  let chain2 :=
    update chain2
      [("locus", locus2);
       ("junction_aa", junction_aa2);
       ("junction", VNull);
       ("consensus_count", VNull);
       ("v_call", v_call2);
       ("d_call", d_call2);
       ("j_call", j_call2);
       ("productive", VBool true)] in
  foldlM add_resolved cell [chain1; chain2].

(** [tcr_cells] after the loop, from the table as downloaded. *)
Definition iedb_cells (sm : StringMethods) (iedb_df : DataFrame)
  : result (list AirrCell) :=
  iedb_df ← iedb_preprocess sm iedb_df;
  traverse (λ ir : nat * gmap string value, iedb_row ir.2) iedb_df.

End Iedb.

(** Modelled from the spec: the locus resolver, which is not part of these
    sources.  Each key is inspected in order; a gene name whose first
    characters are a recognised locus code (TRA, TRB, TRG, TRD, IGH, IGK, IGL)
    gives that locus; when no key matches the locus stays unresolved. *)
Definition LOCUS_CODES : list string :=
  ["TRA"; "TRB"; "TRG"; "TRD"; "IGH"; "IGK"; "IGL"].

Definition locus_of_gene (gene : string) : option string :=
  List.find (λ code, String.prefix code gene) LOCUS_CODES.

Fixpoint infer_locus_from_gene_names (chain_dict : gmap string value)
    (keys : list string) : value :=
  match keys with
  | [] => VNull
  | k :: keys' =>
      match chain_dict !! k with
      | Some (VStr gene) =>
          match locus_of_gene gene with
          | Some code => VStr code
          | None => infer_locus_from_gene_names chain_dict keys'
          end
      | _ => infer_locus_from_gene_names chain_dict keys'
      end
  end.

(** ** The loaders [vdjdb] and [iedb] *)

(** Calls to the outside world, recorded in the order they are made. *)
Inductive event : Type :=
| EvReadCache (path : string)
| EvFetch (url : string)
| EvAssemble
| EvIndexChains
| EvMakedirs (path : string)
| EvWriteCache (path : string).

#[global] Instance event_eq_dec : EqDecision event.
Proof. solve_decision. Defined.

(** A computation that may raise and that appends to the record of calls. *)
Definition io (A : Type) : Type := list event → result A * list event.

#[global] Instance io_ret : MRet io := λ A a tr, (Ok a, tr).
#[global] Instance io_bind : MBind io := λ A B f m tr,
  match m tr with
  | (Ok a, tr') => f a tr'
  | (Raise e, tr') => (Raise e, tr')
  end.

(** A call to a collaborator: it is recorded and its outcome passed on. *)
Definition call {A} (ev : event) (outcome : result A) : io A :=
  λ tr, (outcome, (tr ++ [ev])%list).

(** A computation of this module, which calls nobody. *)
Definition pure {A} (r : result A) : io A := λ tr, (r, tr).

(** [try: return body / except OSError: pass], followed by [rest]. *)
Definition try_return_except_OSError {A} (body rest : io A) : io A :=
  λ tr,
    match body tr with
    | (Ok a, tr') => (Ok a, tr')
    | (Raise e, tr') => if is_OSError e then rest tr' else (Raise e, tr')
    end.

Definition is_fetch (ev : event) : bool :=
  match ev with EvFetch _ => true | _ => false end.

Definition VDJDB_LATEST_VERSION_URL : string :=
  "https://raw.githubusercontent.com/antigenomics/vdjdb-db/master/latest-version.txt".

Definition IEDB_URL : string :=
  "https://www.iedb.org/downloader.php?file_name=doc/receptor_full_v3.zip".

(** The container type of [anndata] and the collaborators of the loaders:
    the cache reader and writer, the downloads, the string methods, the
    assembly of cells into a container ([from_airr_cells]), the chain index
    ([index_chains]) and the locus resolver. *)
Record Collaborators : Type := {
  AnnData : Type;
  string_methods : StringMethods;
  read_h5ad : string → result AnnData;
  urlopen_read_split : string → result (list string);
  download_vdjdb_full : string → result (list (gmap string value));
  read_csv : string → result (list (gmap string value));
  from_airr_cells : list AirrCell → result AnnData;
  index_chains : AnnData → result AnnData;
  set_uns_DB : string → string → AnnData → AnnData;
  n_obs : AnnData → nat;
  now_isoformat : string;
  dirname_abspath : string → string;
  makedirs : string → result unit;
  write_h5ad : AnnData → string → result unit;
  _infer_locus_from_gene_names : gmap string value → list string → value
}.

Section Loaders.

Variable W : Collaborators.

(** [vdjdb] after the cache lookup: download, normalise, assemble, store. *)
Definition vdjdb_fetch (cache_path : string) : io (AnnData W) :=
  latest_versions ←
    call (EvFetch VDJDB_LATEST_VERSION_URL)
         (urlopen_read_split W VDJDB_LATEST_VERSION_URL);
  url ← pure (match latest_versions with
              | u :: _ => Ok u
              | [] => Raise IndexError
              end);
  records ← call (EvFetch url) (download_vdjdb_full W url);
  let df := read_csv_frame records in
  tcr_cells ← pure (vdjdb_cells df);
  adata ← call EvAssemble (from_airr_cells W tcr_cells);
  adata ← call EvIndexChains (index_chains W adata);
  let adata := set_uns_DB W "VDJDB" (now_isoformat W) adata in
  _ ← call (EvMakedirs (dirname_abspath W cache_path))
           (makedirs W (dirname_abspath W cache_path));
  _ ← call (EvWriteCache cache_path) (write_h5ad W adata cache_path);
  mret adata.

Definition vdjdb (cached : bool) (cache_path : string) : io (AnnData W) :=
  if cached
  then try_return_except_OSError
         (call (EvReadCache cache_path) (read_h5ad W cache_path))
         (vdjdb_fetch cache_path)
  else vdjdb_fetch cache_path.

(** [iedb] after the cache lookup. *)
Definition iedb_fetch (cache_path : string) : io (AnnData W) :=
  records ← call (EvFetch IEDB_URL) (read_csv W IEDB_URL);
  let iedb_df := read_csv_frame records in
  iedb_df ← pure (iedb_preprocess (string_methods W) iedb_df);
  tcr_cells ←
    pure (traverse (λ ir : nat * gmap string value,
                      iedb_row (_infer_locus_from_gene_names W) ir.2) iedb_df);
  iedb ← call EvAssemble (from_airr_cells W tcr_cells);
  _ ← pure (if decide (n_obs W iedb = List.length iedb_df) then Ok ()
            else Raise (ValueError "Length mismatch"));
  let iedb := set_uns_DB W "IEDB" (now_isoformat W) iedb in
  iedb ← call EvIndexChains (index_chains W iedb);
  _ ← call (EvMakedirs (dirname_abspath W cache_path))
           (makedirs W (dirname_abspath W cache_path));
  _ ← call (EvWriteCache cache_path) (write_h5ad W iedb cache_path);
  mret iedb.

Definition iedb (cached : bool) (cache_path : string) : io (AnnData W) :=
  if cached
  then try_return_except_OSError
         (call (EvReadCache cache_path) (read_h5ad W cache_path))
         (iedb_fetch cache_path)
  else iedb_fetch cache_path.

End Loaders.

(** ** Vocabulary of the statements *)

(** Is the chain's locus [code]? *)
Definition has_locus (code : string) (chain : gmap string value) : bool :=
  bool_decide (chain !! "locus" = Some (VStr code)).

(** A row with every column of [cols] null, then the given entries. *)
Definition make_row (cols : list string) (entries : list (string * value))
  : gmap string value :=
  update (list_to_map ((λ c, (c, VNull)) <$> cols)) entries.

(** The end-to-end scenario of the spec: an alpha chain only. *)
Definition vdjdb_example_row : gmap string value :=
  make_row VDJDB_COLUMNS
    [("cdr3.alpha", VStr "CAVRPTSGGSYIPTF");
     ("v.alpha", VStr "TRAV3");
     ("j.alpha", VStr "TRAJ6");
     ("species", VStr "HomoSapiens")].

(** The columns of the IEDB export that [iedb] subscripts. *)
Definition IEDB_COLUMNS : list string :=
  DEDUP_SUBSET ++
  ["Chain 1 CDR3 Calculated"; "Chain 2 CDR3 Calculated";
   "Curated Chain 1 V Gene"; "Calculated Chain 1 V Gene";
   "Curated Chain 2 V Gene"; "Calculated Chain 2 V Gene";
   "Curated Chain 1 D Gene"; "Calculated Chain 1 D Gene";
   "Curated Chain 2 D Gene"; "Calculated Chain 2 D Gene";
   "Curated Chain 1 J Gene"; "Calculated Chain 1 J Gene";
   "Curated Chain 2 J Gene"; "Calculated Chain 2 J Gene";
   "Receptor ID"; "Reference IRI"; "Epitope IRI"].

(** Does every row of the frame carry the columns [cols]? *)
Definition frame_has_columns (cols : list string) (df : DataFrame) : bool :=
  forallb (λ ir : nat * gmap string value, has_columns cols ir.2) df.

(** Records of an IEDB export.  A T-cell receptor of which only the alpha
    chain is known: *)
Definition iedb_alpha_only : gmap string value :=
  make_row IEDB_COLUMNS
    [("Receptor ID", VInt 11); ("Organism", VStr "Homo sapiens");
     ("Antigen", VStr "NP"); ("Response Type", VStr "T cell");
     ("Chain 1 Type", VStr "alpha");
     ("Chain 1 CDR3 Curated", VStr "CAVRPTSGGSYIPTF");
     ("Curated Chain 1 V Gene", VStr "TRAV3");
     ("Curated Chain 1 J Gene", VStr "TRAJ6")].

(** An antibody whose curated heavy-chain V gene and light-chain CDR3 are
    missing, with calculated ones in lower case, and whose light chain is
    kappa: *)
Definition iedb_heavy_kappa : gmap string value :=
  make_row IEDB_COLUMNS
    [("Receptor ID", VInt 12); ("Organism", VStr "Homo sapiens");
     ("Antigen", VStr "Spike"); ("Response Type", VStr "B cell");
     ("Chain 1 Type", VStr "heavy"); ("Chain 2 Type", VStr "light");
     ("Chain 1 CDR3 Curated", VStr "ARDYYGSSYFDY");
     ("Chain 2 CDR3 Calculated", VStr "qqsystplt");
     ("Calculated Chain 1 V Gene", VStr "ighv1-69*01");
     ("Curated Chain 1 D Gene", VStr "IGHD3-10");
     ("Curated Chain 1 J Gene", VStr "IGHJ4");
     ("Curated Chain 2 V Gene", VStr "IGKV1-5");
     ("Curated Chain 2 J Gene", VStr "IGKJ1")].

(** The same key columns as [iedb_heavy_kappa] under another receptor id: *)
Definition iedb_heavy_kappa_again : gmap string value :=
  make_row IEDB_COLUMNS
    [("Receptor ID", VInt 13); ("Organism", VStr "Homo sapiens");
     ("Antigen", VStr "Spike"); ("Response Type", VStr "B cell");
     ("Chain 1 Type", VStr "heavy"); ("Chain 2 Type", VStr "light");
     ("Chain 1 CDR3 Curated", VStr "ARDYYGSSYFDY");
     ("Curated Chain 1 V Gene", VStr "IGHV3-23")].

(** An antibody listed light chain first, with a Chain 1 D gene on record: *)
Definition iedb_lambda_heavy : gmap string value :=
  make_row IEDB_COLUMNS
    [("Receptor ID", VInt 14); ("Organism", VStr "Homo sapiens");
     ("Antigen", VStr "gp120"); ("Response Type", VStr "B cell");
     ("Chain 1 Type", VStr "light"); ("Chain 2 Type", VStr "heavy");
     ("Chain 1 CDR3 Curated", VStr "QSYDSSLSGSV");
     ("Curated Chain 1 V Gene", VStr "IGLV2-14");
     ("Curated Chain 1 D Gene", VStr "IGHD1-1");
     ("Chain 2 CDR3 Curated", VStr "ARGGYSSGWYFDV");
     ("Curated Chain 2 V Gene", VStr "IGHV4-34");
     ("Calculated Chain 2 D Gene", VStr "ighd6-19")].

(** An antibody whose chains name no gene: *)
Definition iedb_no_genes : gmap string value :=
  make_row IEDB_COLUMNS
    [("Receptor ID", VInt 15); ("Organism", VStr "Mus musculus");
     ("Antigen", VStr "HA"); ("Response Type", VStr "B cell");
     ("Chain 1 Type", VStr "heavy"); ("Chain 2 Type", VStr "light");
     ("Chain 1 CDR3 Curated", VStr "ARGGY");
     ("Chain 2 CDR3 Curated", VStr "QQWSSNPLT")].

(** A T-cell receptor with both chains: *)
Definition iedb_alpha_beta : gmap string value :=
  make_row IEDB_COLUMNS
    [("Receptor ID", VInt 16); ("Organism", VStr "Homo sapiens");
     ("Antigen", VStr "pp65"); ("Response Type", VStr "T cell");
     ("Chain 1 Type", VStr "alpha"); ("Chain 2 Type", VStr "beta");
     ("Chain 1 CDR3 Curated", VStr "CAVNTGNQFYF");
     ("Curated Chain 1 V Gene", VStr "TRAV12-2");
     ("Curated Chain 1 J Gene", VStr "TRAJ49");
     ("Chain 2 CDR3 Curated", VStr "CASSLAPGATNEKLFF");
     ("Curated Chain 2 V Gene", VStr "TRBV6-5");
     ("Curated Chain 2 D Gene", VStr "TRBD2");
     ("Curated Chain 2 J Gene", VStr "TRBJ1-4")].

(** A small export.  Every curated column has a string in some record, so
    that pandas reads each of them as a column of strings. *)
Definition iedb_example_records : list (gmap string value) :=
  [iedb_alpha_only; iedb_heavy_kappa; iedb_heavy_kappa_again;
   iedb_lambda_heavy; iedb_no_genes; iedb_alpha_beta].

(** An export in which every record has two chains of accepted types. *)
Definition iedb_paired_records : list (gmap string value) :=
  [iedb_heavy_kappa; iedb_lambda_heavy; iedb_no_genes; iedb_alpha_beta].

(** ** What the preprocessing amounts to, row by row

    The functions below describe the outcome of [iedb_preprocess] on a table
    that has the columns of the export; the properties section proves that
    the code computes them. *)

(** [row[k]] for a column that is there. *)
Definition col (row : gmap string value) (k : string) : value :=
  default VNull (row !! k).

(** The curated value if there is one, else the calculated one. *)
Definition backfill (row : gmap string value) (curated : string) : value :=
  if isnull (col row curated)
  then col row (str_replace "Curated" "Calculated" curated)
  else col row curated.

(** The same, upper-cased. *)
Definition backfilled (sm : StringMethods) (row : gmap string value)
    (curated : string) : value :=
  str_upper_value sm (backfill row curated).

Definition is_string (v : value) : bool :=
  match v with VStr _ => true | _ => false end.

(** Does the column [c] of the frame hold a string? *)
Definition holds_string (df : DataFrame) (c : string) : bool :=
  existsb (λ ir : nat * gmap string value, is_string (col ir.2 c)) df.

(** String methods that accept exactly the columns that hold a string and
    upper-case ASCII letters, as pandas and Python do on the columns and the
    strings of the examples. *)
Definition ascii_string_methods : StringMethods :=
  {| str_accessor_accepts := holds_string;
     str_upper := ascii_str_upper |}.

(** [.str] accepts every column that holds a string. *)
Definition accepts_string_columns (sm : StringMethods) : Prop :=
  ∀ df c, holds_string df c = true → str_accessor_accepts sm df c = true.

(** [str.upper] upper-cases a string of ASCII characters letter by letter. *)
Definition upper_on_ascii (sm : StringMethods) : Prop :=
  ∀ s, is_ascii s = true → str_upper sm s = ascii_str_upper s.

(** Is the character one of a-z? *)
Definition is_lower (c : ascii) : bool :=
  (97 <=? nat_of_ascii c)%nat && (nat_of_ascii c <=? 122)%nat.

(** [f] applied to every row of the frame, the labels kept. *)
Definition map_rows (f : gmap string value → gmap string value)
    (df : DataFrame) : DataFrame :=
  (λ ir : nat * gmap string value, (ir.1, f ir.2)) <$> df.

(** The curated columns, in the order in which [iedb] treats them. *)
Definition CURATED_COLUMNS : list string :=
  ["Chain 1 CDR3 Curated"; "Chain 2 CDR3 Curated";
   "Curated Chain 1 V Gene"; "Curated Chain 2 V Gene";
   "Curated Chain 1 D Gene"; "Curated Chain 2 D Gene";
   "Curated Chain 1 J Gene"; "Curated Chain 2 J Gene"].

Definition curate_column (sm : StringMethods) (row : gmap string value)
    (input : string) : gmap string value :=
  <[input := backfilled sm row input]> row.

Definition curate (sm : StringMethods) (row : gmap string value)
  : gmap string value :=
  foldl (curate_column sm) row CURATED_COLUMNS.

(** Keep the first row of each key. *)
Fixpoint dedup_by {K : Type} `{EqDecision K}
    (key : gmap string value → K) (seen : list K) (df : DataFrame)
  : DataFrame :=
  match df with
  | [] => []
  | ir :: rest =>
      if decide (key ir.2 ∈ seen) then dedup_by key seen rest
      else ir :: dedup_by key (key ir.2 :: seen) rest
  end.

Definition dedup_key (row : gmap string value) : list value :=
  col row <$> DEDUP_SUBSET.

(** The frame after both [drop_duplicates]. *)
Definition deduplicated (df : DataFrame) : DataFrame :=
  dedup_by dedup_key [] (dedup_by (λ row, row) [] df).

(** Are both chain types of the row among the accepted ones? *)
Definition accepted_row (row : gmap string value) : bool :=
  isin accepted_chains (col row "Chain 1 Type")
  && isin accepted_chains (col row "Chain 2 Type").

(** The rows of a frame with their positions, [0, 1, ...]. *)
Definition enumerate (df : DataFrame) : list (nat * (nat * gmap string value)) :=
  imap (λ pos ir, (pos, ir)) df.

(** The positions in the frame whose rows have accepted chain types, in
    increasing order. *)
Definition accepted_positions (df : DataFrame) : list nat :=
  fst <$> List.filter
            (λ pir : nat * (nat * gmap string value), accepted_row pir.2.2)
            (enumerate df).

(** The rows of the frame whose two chain types are accepted. *)
Definition accepted_rows (df : DataFrame) : DataFrame :=
  List.filter (λ ir : nat * gmap string value, accepted_row ir.2) df.

(** Does every curated column of the frame hold a string? *)
Definition curated_hold_strings (df : DataFrame) : bool :=
  forallb (holds_string df) CURATED_COLUMNS.

(** The frame that the loop of [iedb] iterates over. *)
Definition preprocessed (sm : StringMethods) (df : DataFrame) : DataFrame :=
  accepted_rows (assign_cell_id (map_rows (curate sm) (deduplicated df))).

(** ** What the loop body of [iedb] amounts to *)

(** The locus that [receptor_dict] gives for a chain type. *)
Definition locus_of_type (chain_type : value) : value :=
  match receptor_dict_getitem chain_type with
  | Ok locus => locus
  | Raise _ => VNull
  end.

(** [chain1] and [chain2] after their [update]. *)
Definition iedb_chain1 (row : gmap string value) : gmap string value :=
  update empty_chain_dict
    [("locus", locus_of_type (col row "Chain 1 Type"));
     ("junction_aa", col row "Chain 1 CDR3 Curated");
     ("junction", VNull);
     ("consensus_count", VNull);
     ("v_call", col row "Curated Chain 1 V Gene");
     ("d_call", VNull);
     ("j_call", col row "Curated Chain 1 J Gene");
     ("productive", VBool true)].

Definition iedb_chain2 (row : gmap string value) : gmap string value :=
  update empty_chain_dict
    [("locus", locus_of_type (col row "Chain 2 Type"));
     ("junction_aa", col row "Chain 2 CDR3 Curated");
     ("junction", VNull);
     ("consensus_count", VNull);
     ("v_call", col row "Curated Chain 2 V Gene");
     ("d_call", col row "Curated Chain 2 D Gene");
     ("j_call", col row "Curated Chain 2 J Gene");
     ("productive", VBool true)].

(** A chain as it is added to the cell: its locus resolved from the gene
    names when the chain type gave none. *)
Definition resolved (resolver : gmap string value → list string → value)
    (chain_dict : gmap string value) : gmap string value :=
  if isnull (col chain_dict "locus")
  then <["locus" := resolver chain_dict ["v_call"; "d_call"; "j_call"]]> chain_dict
  else chain_dict.

Definition iedb_cell (resolver : gmap string value → list string → value)
    (row : gmap string value) : AirrCell :=
  {| cell_id := col row "cell_id";
     chains := [resolved resolver (iedb_chain1 row);
                resolved resolver (iedb_chain2 row)];
     cell_attrs :=
       <["Epitope IRI" := col row "Epitope IRI"]>
         (<["Reference IRI" := col row "Reference IRI"]>
            (<["Response Type" := col row "Response Type"]>
               (<["Organism" := col row "Organism"]>
                  (<["Antigen" := col row "Antigen"]>
                     (<["Receptor ID" := col row "Receptor ID"]> ∅))))) |}.

(** The chain [chain] is the outcome of a call of the resolver on a
    dictionary whose locus is null and whose gene names are [v], [d] and [j]:
    the dictionary with the resolver's answer, null or not, as its locus. *)
Definition resolver_called_on
    (resolver : gmap string value → list string → value)
    (v d j : option value) (chain : gmap string value) : Prop :=
  ∃ chain_dict : gmap string value,
    chain_dict !! "locus" = Some VNull
    ∧ chain_dict !! "v_call" = v
    ∧ chain_dict !! "d_call" = d
    ∧ chain_dict !! "j_call" = j
    ∧ chain = <["locus" := resolver chain_dict ["v_call"; "d_call"; "j_call"]]>
                chain_dict
    ∧ chain !! "locus"
      = Some (resolver chain_dict ["v_call"; "d_call"; "j_call"]).

(** ** Stand-ins for the collaborators *)

(** A world in which the container is the list of cells itself, downloads
    deliver the example tables and writes succeed; the cache reader is left
    open. *)
Definition example_world (read : string → result (list AirrCell))
  : Collaborators :=
  {| AnnData := list AirrCell;
     string_methods := ascii_string_methods;
     read_h5ad := read;
     urlopen_read_split := λ _, Ok ["https://example.org/vdjdb.zip"];
     download_vdjdb_full := λ _, Ok [vdjdb_example_row];
     read_csv := λ _, Ok iedb_example_records;
     from_airr_cells := λ cells, Ok cells;
     index_chains := λ adata, Ok adata;
     set_uns_DB := λ _ _ adata, adata;
     n_obs := λ adata, List.length adata;
     now_isoformat := "2023-03-01T12:00:00";
     dirname_abspath := λ _, "/home/user/data";
     makedirs := λ _, Ok ();
     write_h5ad := λ _ _, Ok ();
     _infer_locus_from_gene_names := infer_locus_from_gene_names |}.

(** Three cache readers: a cache that holds an (empty) container, no cache
    file, and a file that is not a container. *)
Definition read_hit : string → result (list AirrCell) :=
  λ _, Ok [].
Definition read_missing : string → result (list AirrCell) :=
  λ path, Raise (FileNotFoundError path).
Definition read_not_a_container : string → result (list AirrCell) :=
  λ _, Raise (ValueError "not an AnnData file").

(** The field [k] of every chain of every cell, and the identifiers of the
    cells. *)
Definition chain_fields (k : string) (cells : result (list AirrCell))
  : result (list (list (option value))) :=
  match cells with
  | Ok cells =>
      Ok ((λ cell : AirrCell,
             (λ c : gmap string value, c !! k) <$> chains cell) <$> cells)
  | Raise e => Raise e
  end.

Definition cell_ids (cells : result (list AirrCell)) : result (list value) :=
  match cells with
  | Ok cells => Ok (cell_id <$> cells)
  | Raise e => Raise e
  end.

(** * Properties *)

(** ** The error monad and the loops *)

Lemma has_columns_lookup cols row c :
  has_columns cols row = true → c ∈ cols → ∃ v, row !! c = Some v.
Proof.
  unfold has_columns. rewrite forallb_forall. intros H Hc.
  apply list_elem_of_In, H, bool_decide_eq_true in Hc. exact Hc.
Qed.

Lemma getitem_Some (d : gmap string value) k v :
  d !! k = Some v → getitem d k = Ok v.
Proof. unfold getitem. by intros ->. Qed.

Lemma getitem_Ok (d : gmap string value) k v :
  getitem d k = Ok v → d !! k = Some v.
Proof. unfold getitem. destruct (d !! k); congruence. Qed.

Lemma bind_Ok {A B} (f : A → result B) (m : result A) (b : B) :
  (m ≫= f) = Ok b → ∃ a, m = Ok a ∧ f a = Ok b.
Proof. destruct m as [a|e]; [by exists a | discriminate]. Qed.

Lemma traverse_ok_fmap {A B} (f : A → result B) (g : A → B) (l : list A) :
  Forall (λ a, f a = Ok (g a)) l → traverse f l = Ok (g <$> l).
Proof.
  induction 1 as [|a l Ha _ IH]; [done|]. simpl. by rewrite Ha, IH.
Qed.

Lemma traverse_Forall2 {A B} (f : A → result B) (l : list A) (l' : list B) :
  traverse f l = Ok l' → Forall2 (λ a b, f a = Ok b) l l'.
Proof.
  revert l'. induction l as [|a l IH]; intros l' H; simpl in H.
  - injection H as <-. constructor.
  - apply bind_Ok in H as (b & Hb & H).
    apply bind_Ok in H as (bs & Hbs & H). injection H as <-.
    constructor; [done | by apply IH].
Qed.

(** ** VDJDB: the metadata loop *)

Lemma metadata_loop (row : gmap string value) (fs : list string) (cell : AirrCell) :
  Forall (λ f, is_Some (row !! f)) fs →
  ∃ cell',
    foldlM (λ cell f, v ← getitem row f; Ok (setitem f v cell)) cell fs = Ok cell'
    ∧ cell_id cell' = cell_id cell
    ∧ chains cell' = chains cell
    ∧ ∀ k, cell_attrs cell' !! k
           = if decide (k ∈ fs) then row !! k else cell_attrs cell !! k.
Proof.
  intros Hfs. revert cell.
  induction Hfs as [|f fs [v Hv] _ IH]; intros cell.
  - exists cell. repeat split.
  - simpl. rewrite (getitem_Some _ _ _ Hv). simpl.
    destruct (IH (setitem f v cell)) as (cell' & -> & Hid & Hch & Hat).
    exists cell'. repeat split; [done..|]. intros k. rewrite Hat. simpl.
    destruct (decide (k ∈ fs)) as [Hk|Hk].
    + rewrite decide_True by (by right). done.
    + destruct (decide (k = f)) as [->|Hne].
      * rewrite decide_True by left. by rewrite lookup_insert_eq.
      * rewrite decide_False; [by rewrite lookup_insert_ne|].
        intros [?|?]%elem_of_cons; done.
Qed.

Lemma has_columns_Forall cols row :
  has_columns cols row = true → Forall (λ f, is_Some (row !! f)) cols.
Proof.
  intros H. apply Forall_forall. intros c Hc.
  destruct (has_columns_lookup _ _ _ H Hc) as [v Hv]. by exists v.
Qed.

Lemma has_columns_app l1 l2 row :
  has_columns (l1 ++ l2)%list row = true →
  has_columns l1 row = true ∧ has_columns l2 row = true.
Proof. unfold has_columns. rewrite forallb_app. apply andb_prop. Qed.

(** What [vdjdb_row] returns, spelled out: the chains in order, then the
    metadata. *)
Lemma vdjdb_row_unfold idx row a b :
  has_columns VDJDB_COLUMNS row = true →
  row !! "cdr3.alpha" = Some a →
  row !! "cdr3.beta" = Some b →
  ∃ va ja vb db jb cell,
    row !! "v.alpha" = Some va ∧ row !! "j.alpha" = Some ja ∧
    row !! "v.beta" = Some vb ∧ row !! "d.beta" = Some db ∧
    row !! "j.beta" = Some jb ∧
    vdjdb_row idx row = Ok cell ∧
    cell_id cell = VStr (pretty idx) ∧
    chains cell =
      ((if isnull a then []
       else [update empty_chain_dict
               [("locus", VStr "TRA"); ("junction_aa", a); ("v_call", va);
                ("j_call", ja); ("consensus_count", VInt 0);
                ("productive", VBool true)]])
      ++ (if isnull b then []
          else [update empty_chain_dict
                  [("locus", VStr "TRB"); ("junction_aa", b); ("v_call", vb);
                   ("d_call", db); ("j_call", jb); ("consensus_count", VInt 0);
                   ("productive", VBool true)]]))%list ∧
    ∀ k, cell_attrs cell !! k
         = if decide (k ∈ INCLUDE_CELL_METADATA_FIELDS) then row !! k else None.
Proof.
  intros Hcols Ha Hb.
  pose proof (has_columns_lookup _ _ "v.alpha" Hcols) as [va Hva]; [set_solver|].
  pose proof (has_columns_lookup _ _ "j.alpha" Hcols) as [ja Hja]; [set_solver|].
  pose proof (has_columns_lookup _ _ "v.beta" Hcols) as [vb Hvb]; [set_solver|].
  pose proof (has_columns_lookup _ _ "d.beta" Hcols) as [db Hdb]; [set_solver|].
  pose proof (has_columns_lookup _ _ "j.beta" Hcols) as [jb Hjb]; [set_solver|].
  apply (has_columns_app [_;_;_;_;_;_;_]) in Hcols as [_ Hmeta].
  apply has_columns_Forall in Hmeta.
  pose proof (λ c, metadata_loop row _ c Hmeta) as Hloop. clear Hmeta.
  exists va, ja, vb, db, jb.
  unfold vdjdb_row.
  rewrite !(getitem_Some _ _ _ Ha), !(getitem_Some _ _ _ Hb),
    (getitem_Some _ _ _ Hva), (getitem_Some _ _ _ Hja),
    (getitem_Some _ _ _ Hvb), (getitem_Some _ _ _ Hdb), (getitem_Some _ _ _ Hjb).
  generalize dependent INCLUDE_CELL_METADATA_FIELDS. intros fs Hloop.
  cbn [mbind result_bind].
  destruct (isnull a), (isnull b); cbn [mbind result_bind negb];
    match goal with
    | |- ∃ cell, _ ∧ _ ∧ _ ∧ _ ∧ _ ∧ foldlM _ ?c _ = _ ∧ _ =>
        destruct (Hloop c) as (cell & Hrun & Hid & Hch & Hat)
    end;
    exists cell; repeat (split; [done|]);
    intros k; rewrite Hat; by case_decide.
Qed.

(** ** VDJDB: chains of a row *)

Lemma alpha_chain_fields (a va ja : value) :
  let c := update empty_chain_dict
             [("locus", VStr "TRA"); ("junction_aa", a); ("v_call", va);
              ("j_call", ja); ("consensus_count", VInt 0);
              ("productive", VBool true)] in
  has_locus "TRA" c = true ∧ has_locus "TRB" c = false
  ∧ c !! "junction_aa" = Some a
  ∧ c !! "consensus_count" = Some (VInt 0)
  ∧ c !! "productive" = Some (VBool true).
Proof. repeat split; reflexivity. Qed.

Lemma beta_chain_fields (b vb db jb : value) :
  let c := update empty_chain_dict
             [("locus", VStr "TRB"); ("junction_aa", b); ("v_call", vb);
              ("d_call", db); ("j_call", jb); ("consensus_count", VInt 0);
              ("productive", VBool true)] in
  has_locus "TRA" c = false ∧ has_locus "TRB" c = true
  ∧ c !! "junction_aa" = Some b
  ∧ c !! "consensus_count" = Some (VInt 0)
  ∧ c !! "productive" = Some (VBool true).
Proof. repeat split; reflexivity. Qed.

(** C1.  For every VDJDB row that carries the columns of the export, the
    normaliser returns a cell; the cell has one TRA chain when [cdr3.alpha] is
    non-null and none otherwise, one TRB chain when [cdr3.beta] is non-null and
    none otherwise, and no other chain (so zero, one or two chains); every
    chain has [consensus_count] 0 and [productive] true, the TRA chain has
    [cdr3.alpha] as its [junction_aa] and the TRB chain has [cdr3.beta]. *)
Theorem vdjdb_row_emits_chains (idx : nat) (row : gmap string value) (a b : value) :
  has_columns VDJDB_COLUMNS row = true →
  row !! "cdr3.alpha" = Some a →
  row !! "cdr3.beta" = Some b →
  ∃ cell,
    vdjdb_row idx row = Ok cell
    ∧ ((∃ c, c ∈ chains cell ∧ has_locus "TRA" c = true) ↔ isnull a = false)
    ∧ ((∃ c, c ∈ chains cell ∧ has_locus "TRB" c = true) ↔ isnull b = false)
    ∧ List.length (List.filter (has_locus "TRA") (chains cell))
      = (if isnull a then 0 else 1)
    ∧ List.length (List.filter (has_locus "TRB") (chains cell))
      = (if isnull b then 0 else 1)
    ∧ List.length (chains cell)
      = (if isnull a then 0 else 1) + (if isnull b then 0 else 1)
    ∧ ∀ c, c ∈ chains cell →
        c !! "consensus_count" = Some (VInt 0)
        ∧ c !! "productive" = Some (VBool true)
        ∧ (has_locus "TRA" c = true ∨ has_locus "TRB" c = true)
        ∧ (has_locus "TRA" c = true → c !! "junction_aa" = Some a)
        ∧ (has_locus "TRB" c = true → c !! "junction_aa" = Some b).
Proof.
  intros Hcols Ha Hb.
  destruct (vdjdb_row_unfold idx row a b Hcols Ha Hb)
    as (va & ja & vb & db & jb & cell & _ & _ & _ & _ & _ & Hrun & _ & Hch & _).
  exists cell. split; [exact Hrun|]. rewrite Hch. clear Hrun Hch.
  pose proof (alpha_chain_fields a va ja) as Hα.
  pose proof (beta_chain_fields b vb db jb) as Hβ.
  cbv zeta in Hα, Hβ.
  set (ca := update empty_chain_dict (("locus", VStr "TRA") :: _)) in *.
  set (cb := update empty_chain_dict (("locus", VStr "TRB") :: _)) in *.
  destruct Hα as (Haa & Hab & Haj & Hac & Hap).
  destruct Hβ as (Hba & Hbb & Hbj & Hbc & Hbp).
  clearbody ca cb.
  assert (∀ c : gmap string value, c ∈ [ca] ↔ c = ca) as E1
    by (intros; apply list_elem_of_singleton).
  assert (∀ c : gmap string value, c ∈ [cb] ↔ c = cb) as E2
    by (intros; apply list_elem_of_singleton).
  assert (∀ c : gmap string value, c ∈ [ca; cb] ↔ c = ca ∨ c = cb) as E3
    by (intros; rewrite elem_of_cons, list_elem_of_singleton; done).
  assert (∀ c : gmap string value, ¬ c ∈ @nil (gmap string value)) as E0
    by (intros; apply not_elem_of_nil).
  destruct (isnull a), (isnull b); cbn [app List.filter List.length];
    rewrite ?Haa, ?Hab, ?Hba, ?Hbb; cbn [app List.filter List.length];
    split_and!; try reflexivity.
  - split; [|done]. intros (c & Hc & _). destruct (E0 _ Hc).
  - split; [|done]. intros (c & Hc & _). destruct (E0 _ Hc).
  - intros c Hc. destruct (E0 _ Hc).
  - split; [|done]. intros (c & Hc & Hl). apply E2 in Hc as ->. congruence.
  - split; [done|]. intros _. exists cb. split; [by apply E2 | done].
  - intros c Hc. apply E2 in Hc as ->.
    split_and!; [done | done | by right | congruence | done].
  - split; [done|]. intros _. exists ca. split; [by apply E1 | done].
  - split; [|done]. intros (c & Hc & Hl). apply E1 in Hc as ->. congruence.
  - intros c Hc. apply E1 in Hc as ->.
    split_and!; [done | done | by left | done | congruence].
  - split; [done|]. intros _. exists ca. split; [apply E3; by left | done].
  - split; [done|]. intros _. exists cb. split; [apply E3; by right | done].
  - intros c Hc. apply E3 in Hc as [-> | ->].
    + split_and!; [done | done | by left | done | congruence].
    + split_and!; [done | done | by right | congruence | done].
Qed.

Lemma vdjdb_row_emits_chains_witness :
  ∃ cell,
    vdjdb_row 0 vdjdb_example_row = Ok cell
    ∧ ((∃ c, c ∈ chains cell ∧ has_locus "TRA" c = true)
       ↔ isnull (VStr "CAVRPTSGGSYIPTF") = false)
    ∧ ((∃ c, c ∈ chains cell ∧ has_locus "TRB" c = true) ↔ isnull VNull = false)
    ∧ List.length (List.filter (has_locus "TRA") (chains cell)) = 1
    ∧ List.length (List.filter (has_locus "TRB") (chains cell)) = 0
    ∧ List.length (chains cell) = 1 + 0
    ∧ ∀ c, c ∈ chains cell →
        c !! "consensus_count" = Some (VInt 0)
        ∧ c !! "productive" = Some (VBool true)
        ∧ (has_locus "TRA" c = true ∨ has_locus "TRB" c = true)
        ∧ (has_locus "TRA" c = true
           → c !! "junction_aa" = Some (VStr "CAVRPTSGGSYIPTF"))
        ∧ (has_locus "TRB" c = true → c !! "junction_aa" = Some VNull).
Proof.
  apply (vdjdb_row_emits_chains 0 vdjdb_example_row
           (VStr "CAVRPTSGGSYIPTF") VNull); reflexivity.
Defined.

(** ** VDJDB: metadata of a row *)

Lemma INCLUDE_CELL_METADATA_FIELDS_NoDup : NoDup INCLUDE_CELL_METADATA_FIELDS.
Proof. apply (bool_decide_unpack _). by vm_compute. Qed.

Lemma has_cdr3_columns row :
  has_columns VDJDB_COLUMNS row = true →
  ∃ a b, row !! "cdr3.alpha" = Some a ∧ row !! "cdr3.beta" = Some b.
Proof.
  intros H.
  destruct (has_columns_lookup _ _ "cdr3.alpha" H) as [a Ha]; [set_solver|].
  destruct (has_columns_lookup _ _ "cdr3.beta" H) as [b Hb]; [set_solver|].
  by exists a, b.
Qed.

(** C7, with the length of the list as it is in the code.  For every VDJDB row
    that carries the columns of the export, the cell gets exactly the fields
    of the allow-list, which has 25 distinct entries: each listed field holds
    the row's value as it is (a null stays a null under its key), and no other
    key is set. *)
Theorem vdjdb_row_metadata (idx : nat) (row : gmap string value) :
  has_columns VDJDB_COLUMNS row = true →
  ∃ cell,
    vdjdb_row idx row = Ok cell
    ∧ List.length INCLUDE_CELL_METADATA_FIELDS = 25
    ∧ NoDup INCLUDE_CELL_METADATA_FIELDS
    ∧ (∀ f, f ∈ INCLUDE_CELL_METADATA_FIELDS →
         is_Some (cell_attrs cell !! f) ∧ cell_attrs cell !! f = row !! f)
    ∧ (∀ f, f ∈ INCLUDE_CELL_METADATA_FIELDS →
         row !! f = Some VNull → cell_attrs cell !! f = Some VNull)
    ∧ (∀ k, k ∉ INCLUDE_CELL_METADATA_FIELDS → cell_attrs cell !! k = None)
    ∧ dom (cell_attrs cell) = list_to_set INCLUDE_CELL_METADATA_FIELDS
    ∧ size (cell_attrs cell) = 25.
Proof.
  intros Hcols.
  destruct (has_cdr3_columns row Hcols) as (a & b & Ha & Hb).
  destruct (vdjdb_row_unfold idx row a b Hcols Ha Hb)
    as (_ & _ & _ & _ & _ & cell & _ & _ & _ & _ & _ & Hrun & _ & _ & Hat).
  assert (dom (cell_attrs cell)
          = (list_to_set INCLUDE_CELL_METADATA_FIELDS : gset string)) as Hdom.
  { apply set_eq. intros k.
    rewrite elem_of_dom, elem_of_list_to_set, Hat.
    case_decide as Hk.
    - split; [done|]. intros _. apply (has_columns_lookup _ _ k Hcols).
      unfold VDJDB_COLUMNS. apply elem_of_app. by right.
    - split; [by intros [? ?] | done]. }
  exists cell. split_and!; try done.
  - apply INCLUDE_CELL_METADATA_FIELDS_NoDup.
  - intros f Hf. rewrite Hat, decide_True by done. split; [|done].
    apply (has_columns_lookup _ _ f Hcols).
    unfold VDJDB_COLUMNS. apply elem_of_app. by right.
  - intros f Hf Hnull. by rewrite Hat, decide_True.
  - intros k Hk. by rewrite Hat, decide_False.
  - rewrite <- size_dom, Hdom, size_list_to_set
      by apply INCLUDE_CELL_METADATA_FIELDS_NoDup.
    reflexivity.
Qed.

Lemma vdjdb_row_metadata_witness :
  ∃ cell,
    vdjdb_row 0 vdjdb_example_row = Ok cell
    ∧ List.length INCLUDE_CELL_METADATA_FIELDS = 25
    ∧ NoDup INCLUDE_CELL_METADATA_FIELDS
    ∧ (∀ f, f ∈ INCLUDE_CELL_METADATA_FIELDS →
         is_Some (cell_attrs cell !! f)
         ∧ cell_attrs cell !! f = vdjdb_example_row !! f)
    ∧ (∀ f, f ∈ INCLUDE_CELL_METADATA_FIELDS →
         vdjdb_example_row !! f = Some VNull → cell_attrs cell !! f = Some VNull)
    ∧ (∀ k, k ∉ INCLUDE_CELL_METADATA_FIELDS → cell_attrs cell !! k = None)
    ∧ dom (cell_attrs cell) = list_to_set INCLUDE_CELL_METADATA_FIELDS
    ∧ size (cell_attrs cell) = 25.
Proof. apply (vdjdb_row_metadata 0 vdjdb_example_row). reflexivity. Defined.

(** C7 as stated fails on the length of the list: for the example row, no list
    of 24 names is the set of metadata keys of the cell. *)
Lemma vdjdb_metadata_not_24_fields :
  ∃ cell,
    vdjdb_row 0 vdjdb_example_row = Ok cell
    ∧ ¬ ∃ allow : list string,
          List.length allow = 24
          ∧ ∀ k, is_Some (cell_attrs cell !! k) ↔ k ∈ allow.
Proof.
  assert (has_columns VDJDB_COLUMNS vdjdb_example_row = true) as Hcols
    by reflexivity.
  destruct (has_cdr3_columns _ Hcols) as (a & b & Ha & Hb).
  destruct (vdjdb_row_unfold 0 _ a b Hcols Ha Hb)
    as (_ & _ & _ & _ & _ & cell & _ & _ & _ & _ & _ & Hrun & _ & _ & Hat).
  exists cell. split; [exact Hrun|].
  intros (allow & Hlen & Hallow).
  assert (INCLUDE_CELL_METADATA_FIELDS ⊆+ allow) as Hsub.
  { apply NoDup_submseteq; [apply INCLUDE_CELL_METADATA_FIELDS_NoDup|].
    intros k Hk. apply Hallow. rewrite Hat, decide_True by done.
    destruct (has_columns_lookup _ _ k Hcols) as [v Hv]; [|by exists v].
    unfold VDJDB_COLUMNS. apply elem_of_app. by right. }
  apply submseteq_length in Hsub. rewrite Hlen in Hsub.
  vm_compute in Hsub. lia.
Qed.

(** ** The cache lookup of the loaders *)

Section LoaderProperties.

Variable W : Collaborators.

(** C8.  With [cached] true and a cache file that reads, both loaders return
    what was read; the only call they make is the read of the cache, so no
    download is started. *)
Theorem cached_hit_returns_without_fetch
    (cache_path : string) (adata : AnnData W) (tr : list event) :
  read_h5ad W cache_path = Ok adata →
  vdjdb W true cache_path tr = (Ok adata, tr ++ [EvReadCache cache_path])
  ∧ iedb W true cache_path tr = (Ok adata, tr ++ [EvReadCache cache_path])
  ∧ List.filter is_fetch (vdjdb W true cache_path []).2 = []
  ∧ List.filter is_fetch (iedb W true cache_path []).2 = [].
Proof.
  intros Hread.
  unfold vdjdb, iedb, try_return_except_OSError, call.
  rewrite Hread. by split_and!.
Qed.

(** C6, for the failures that the [except] clause names.  With [cached]
    true, a read of the cache that raises an [OSError] (a missing or
    unreadable file) is not passed on: each loader continues exactly as its
    download path does after the failed read.  A read that raises anything
    else ends the call with that exception, with no further call. *)
Theorem cache_read_failure
    (cache_path : string) (e : exn) (tr : list event) :
  read_h5ad W cache_path = Raise e →
  vdjdb W true cache_path tr
  = (if is_OSError e
     then vdjdb_fetch W cache_path (tr ++ [EvReadCache cache_path])
     else (Raise e, tr ++ [EvReadCache cache_path]))
  ∧ iedb W true cache_path tr
    = (if is_OSError e
       then iedb_fetch W cache_path (tr ++ [EvReadCache cache_path])
       else (Raise e, tr ++ [EvReadCache cache_path])).
Proof.
  intros Hread.
  unfold vdjdb, iedb, try_return_except_OSError, call.
  rewrite Hread. by destruct (is_OSError e).
Qed.

End LoaderProperties.

Lemma cached_hit_returns_without_fetch_witness :
  vdjdb (example_world read_hit) true "data/db.h5ad" []
  = (Ok [], [] ++ [EvReadCache "data/db.h5ad"])
  ∧ iedb (example_world read_hit) true "data/db.h5ad" []
    = (Ok [], [] ++ [EvReadCache "data/db.h5ad"])
  ∧ List.filter is_fetch
      (vdjdb (example_world read_hit) true "data/db.h5ad" []).2 = []
  ∧ List.filter is_fetch
      (iedb (example_world read_hit) true "data/db.h5ad" []).2 = [].
Proof.
  exact (cached_hit_returns_without_fetch (example_world read_hit)
           "data/db.h5ad" [] [] eq_refl).
Defined.

Lemma cache_read_failure_witness :
  vdjdb (example_world read_missing) true "data/db.h5ad" []
  = (if is_OSError (FileNotFoundError "data/db.h5ad")
     then vdjdb_fetch (example_world read_missing) "data/db.h5ad"
            ([] ++ [EvReadCache "data/db.h5ad"])
     else (Raise (FileNotFoundError "data/db.h5ad"),
           [] ++ [EvReadCache "data/db.h5ad"]))
  ∧ iedb (example_world read_missing) true "data/db.h5ad" []
    = (if is_OSError (FileNotFoundError "data/db.h5ad")
       then iedb_fetch (example_world read_missing) "data/db.h5ad"
              ([] ++ [EvReadCache "data/db.h5ad"])
       else (Raise (FileNotFoundError "data/db.h5ad"),
             [] ++ [EvReadCache "data/db.h5ad"])).
Proof.
  exact (cache_read_failure (example_world read_missing)
           "data/db.h5ad" (FileNotFoundError "data/db.h5ad") [] eq_refl).
Defined.

(** C6 as stated fails for a read failure outside [OSError]: when the cache
    file opens but is not a readable container and the reader raises a
    [ValueError], both loaders end with that exception and fetch nothing. *)
Lemma cache_read_ValueError_is_surfaced :
  vdjdb (example_world read_not_a_container) true "data/vdjdb.h5ad" []
  = (Raise (ValueError "not an AnnData file"), [EvReadCache "data/vdjdb.h5ad"])
  ∧ iedb (example_world read_not_a_container) true "data/iedb.h5ad" []
    = (Raise (ValueError "not an AnnData file"), [EvReadCache "data/iedb.h5ad"]).
Proof. split; reflexivity. Qed.

(** ** IEDB: the preprocessing computes [preprocessed] *)

Ltac solve_elem_of := apply (bool_decide_unpack _); by vm_compute.

Lemma col_lookup (row : gmap string value) k v : row !! k = Some v → col row k = v.
Proof. unfold col. by intros ->. Qed.

Lemma col_insert_ne (row : gmap string value) k k' v :
  k ≠ k' → col (<[k := v]> row) k' = col row k'.
Proof. intros. unfold col. by rewrite lookup_insert_ne. Qed.

Lemma col_insert_eq (row : gmap string value) k v : col (<[k := v]> row) k = v.
Proof. unfold col. by rewrite lookup_insert_eq. Qed.

Lemma getitem_col cols row c :
  has_columns cols row = true → c ∈ cols → getitem row c = Ok (col row c).
Proof.
  intros H Hc. destruct (has_columns_lookup _ _ _ H Hc) as [v Hv].
  by rewrite (getitem_Some _ _ _ Hv), (col_lookup _ _ _ Hv).
Qed.

Lemma lookup_col cols (row : gmap string value) k :
  has_columns cols row = true → k ∈ cols → row !! k = Some (col row k).
Proof.
  intros H Hk. destruct (has_columns_lookup _ _ _ H Hk) as [v Hv].
  by rewrite (col_lookup _ _ _ Hv).
Qed.

Lemma has_columns_insert cols (row : gmap string value) k v :
  has_columns cols row = true → has_columns cols (<[k := v]> row) = true.
Proof.
  unfold has_columns. rewrite !forallb_forall. intros H c Hc.
  specialize (H c Hc). apply bool_decide_eq_true in H.
  apply bool_decide_eq_true. rewrite lookup_insert_is_Some.
  destruct (decide (k = c)); [by left | by right].
Qed.

Lemma frame_has_columns_Forall cols df :
  frame_has_columns cols df = true ↔
  Forall (λ ir : nat * gmap string value, has_columns cols ir.2 = true) df.
Proof.
  unfold frame_has_columns. rewrite forallb_forall, Forall_forall.
  split; intros H x Hx; apply H; by apply list_elem_of_In.
Qed.

Lemma subset_key_ok cols subset row :
  has_columns cols row = true → (∀ c, c ∈ subset → c ∈ cols) →
  subset_key subset row = Ok (col row <$> subset).
Proof.
  intros H Hincl. unfold subset_key. apply traverse_ok_fmap.
  apply Forall_forall. intros c Hc. eapply getitem_col; eauto.
Qed.

Lemma drop_duplicates_go_ok {K : Type} `{EqDecision K}
    (key : gmap string value → result K) (key' : gmap string value → K)
    (seen : list K) (df : DataFrame) :
  Forall (λ ir : nat * gmap string value, key ir.2 = Ok (key' ir.2)) df →
  drop_duplicates_go key seen df = Ok (dedup_by key' seen df).
Proof.
  intros Hdf. revert seen.
  induction Hdf as [|ir df Hir _ IH]; intros seen; [done|].
  simpl. rewrite Hir. simpl.
  destruct (decide (key' ir.2 ∈ seen)); [apply IH|].
  by rewrite IH.
Qed.

Lemma dedup_by_elem_of {K : Type} `{EqDecision K}
    (key : gmap string value → K) seen df ir :
  ir ∈ dedup_by key seen df → ir ∈ df.
Proof.
  revert seen. induction df as [|x df IH]; intros seen; simpl; [done|].
  destruct (decide (key x.2 ∈ seen)).
  - intros H. right. by eapply IH.
  - intros [->|H]%elem_of_cons; [left | right; by eapply IH].
Qed.

Lemma dedup_by_Forall {K : Type} `{EqDecision K}
    (key : gmap string value → K) seen df (P : nat * gmap string value → Prop) :
  Forall P df → Forall P (dedup_by key seen df).
Proof.
  rewrite !Forall_forall. intros H x Hx. eapply H, dedup_by_elem_of, Hx.
Qed.

Lemma deduplicated_elem_of df ir : ir ∈ deduplicated df → ir ∈ df.
Proof. intros H. by do 2 apply dedup_by_elem_of in H. Qed.

(** The two [drop_duplicates] of [iedb] compute [deduplicated]. *)
Lemma drop_duplicates_ok (df : DataFrame) :
  frame_has_columns IEDB_COLUMNS df = true →
  (drop_duplicates None df ≫= drop_duplicates (Some DEDUP_SUBSET))
  = Ok (deduplicated df).
Proof.
  intros Hdf%frame_has_columns_Forall. unfold drop_duplicates.
  rewrite (drop_duplicates_go_ok _ (λ row, row)) by by apply Forall_true.
  cbn [mbind result_bind].
  apply (drop_duplicates_go_ok _ dedup_key).
  eapply Forall_impl; [by apply dedup_by_Forall, Hdf|]. intros [i r] Hr.
  eapply subset_key_ok; [exact Hr|]. intros c Hc.
  unfold IEDB_COLUMNS. apply elem_of_app. by left.
Qed.

Lemma map_rows_compose f g (df : DataFrame) :
  map_rows g (map_rows f df) = map_rows (g ∘ f) df.
Proof. unfold map_rows. by rewrite <- list_fmap_compose. Qed.

Lemma map_rows_has_columns cols f (df : DataFrame) :
  (∀ r, has_columns cols r = true → has_columns cols (f r) = true) →
  Forall (λ ir : nat * gmap string value, has_columns cols ir.2 = true) df →
  Forall (λ ir : nat * gmap string value, has_columns cols ir.2 = true)
         (map_rows f df).
Proof.
  intros Hf Hdf. apply Forall_fmap. eapply Forall_impl; [exact Hdf|].
  intros [i r] Hr. by apply Hf.
Qed.

(** A column that holds a string still holds one after a change of the rows
    that leaves strings of that column in place. *)
Lemma holds_string_map_rows f (df : DataFrame) c :
  (∀ r, is_string (col r c) = true → is_string (col (f r) c) = true) →
  holds_string df c = true → holds_string (map_rows f df) c = true.
Proof.
  intros Hf. unfold holds_string, map_rows.
  induction df as [|[i r] df IH]; [done|].
  rewrite fmap_cons. cbn [existsb fst snd]. intros [H|H]%orb_prop.
  - by rewrite (Hf _ H).
  - rewrite IH by done. apply orb_true_r.
Qed.

Section PreprocessingProperties.

Variable sm : StringMethods.
Hypothesis Hstr : accepts_string_columns sm.

Lemma curate_column_has_columns cols row input :
  has_columns cols row = true →
  has_columns cols (curate_column sm row input) = true.
Proof. apply has_columns_insert. Qed.

Lemma curate_column_keeps_strings row input c :
  input ≠ c →
  is_string (col row c) = true →
  is_string (col (curate_column sm row input) c) = true.
Proof. intros Hne. unfold curate_column. by rewrite col_insert_ne. Qed.

(** One half of [replace_curated]: the nulls of the curated column are
    filled from the calculated column, [.str] accepts the column because it
    holds a string, and the column is upper-cased. *)
Lemma fill_upper_ok (input : string) (df : DataFrame) :
  input ∈ IEDB_COLUMNS →
  str_replace "Curated" "Calculated" input ∈ IEDB_COLUMNS →
  Forall (λ ir : nat * gmap string value,
            has_columns IEDB_COLUMNS ir.2 = true) df →
  holds_string df input = true →
  (fillna_from input (str_replace "Curated" "Calculated" input) df
     ≫= str_upper_column sm input)
  = Ok (map_rows (λ row, curate_column sm row input) df).
Proof.
  intros Hin Hcalc Hdf Hs. set (calc := str_replace _ _ _) in *.
  pose (fill := λ r : gmap string value,
          if isnull (col r input) then <[input := col r calc]> r else r).
  assert (∀ r, has_columns IEDB_COLUMNS r = true →
               has_columns IEDB_COLUMNS (fill r) = true) as Hfill.
  { intros r Hr. unfold fill.
    destruct (isnull (col r input)); [by apply has_columns_insert | done]. }
  unfold fillna_from.
  rewrite (traverse_ok_fmap _ (λ ir, (ir.1, fill ir.2))).
  2:{ eapply Forall_impl; [exact Hdf|]. intros [i r] Hr. cbn [fst snd] in *.
      by rewrite (getitem_col _ _ _ Hr Hcalc), (getitem_col _ _ _ Hr Hin). }
  cbn [mbind result_bind]. fold (map_rows fill df).
  assert (Forall (λ ir : nat * gmap string value,
                    has_columns IEDB_COLUMNS ir.2 = true) (map_rows fill df))
    as Hdf1 by by apply map_rows_has_columns.
  unfold str_upper_column.
  rewrite (traverse_ok_fmap _ (λ ir, col ir.2 input)).
  2:{ eapply Forall_impl; [exact Hdf1|]. intros [i r] Hr.
      by apply (getitem_col _ _ _ Hr Hin). }
  cbn [mbind result_bind]. rewrite Hstr.
  2:{ apply holds_string_map_rows; [|exact Hs]. intros r Hr. unfold fill.
      destruct (col r input) eqn:E; try discriminate Hr. cbn [isnull].
      by rewrite E. }
  rewrite (traverse_ok_fmap _
             (λ ir, (ir.1, <[input := str_upper_value sm (col ir.2 input)]> ir.2))).
  2:{ eapply Forall_impl; [exact Hdf1|]. intros [i r] Hr. cbn [fst snd] in *.
      by rewrite (getitem_col _ _ _ Hr Hin). }
  f_equal. fold (map_rows (λ r, <[input := str_upper_value sm (col r input)]> r)
                   (map_rows fill df)).
  rewrite map_rows_compose. unfold map_rows. apply list_fmap_ext.
  intros _ [i r] _. cbn [fst snd compose]. f_equal.
  unfold curate_column, backfilled, backfill, fill. fold calc.
  destruct (isnull (col r input)) eqn:Hnull; [|done].
  by rewrite insert_insert_eq, col_insert_eq.
Qed.

Lemma replace_curated_ok (input_1 input_2 : string) (df : DataFrame) :
  input_1 ∈ IEDB_COLUMNS →
  str_replace "Curated" "Calculated" input_1 ∈ IEDB_COLUMNS →
  input_2 ∈ IEDB_COLUMNS →
  str_replace "Curated" "Calculated" input_2 ∈ IEDB_COLUMNS →
  input_1 ≠ input_2 →
  Forall (λ ir : nat * gmap string value,
            has_columns IEDB_COLUMNS ir.2 = true) df →
  holds_string df input_1 = true →
  holds_string df input_2 = true →
  replace_curated sm input_1 input_2 df
  = Ok (map_rows (λ row, curate_column sm (curate_column sm row input_1) input_2)
          df).
Proof.
  intros H1 H1' H2 H2' Hne Hdf Hs1 Hs2. unfold replace_curated.
  pose proof (fill_upper_ok input_1 df H1 H1' Hdf Hs1) as E1.
  destruct (fillna_from input_1 _ df) as [df1|]; [|done].
  cbn [mbind result_bind] in E1 |- *. rewrite E1. cbn [mbind result_bind].
  pose proof (fill_upper_ok input_2 (map_rows (λ row, curate_column sm row input_1) df)
                H2 H2') as E2.
  destruct (fillna_from input_2 _ _) as [df2|].
  - cbn [mbind result_bind] in E2 |- *. rewrite E2.
    + by rewrite map_rows_compose.
    + apply map_rows_has_columns; [|exact Hdf].
      intros r. apply curate_column_has_columns.
    + apply holds_string_map_rows; [|exact Hs2].
      intros r. by apply curate_column_keeps_strings.
  - cbn [mbind result_bind] in E2. discriminate E2.
    + apply map_rows_has_columns; [|exact Hdf].
      intros r. apply curate_column_has_columns.
    + apply holds_string_map_rows; [|exact Hs2].
      intros r. by apply curate_column_keeps_strings.
Qed.

End PreprocessingProperties.

Lemma filter_accepted_ok (df : DataFrame) :
  Forall (λ ir : nat * gmap string value,
            has_columns IEDB_COLUMNS ir.2 = true) df →
  filter_accepted df = Ok (accepted_rows df).
Proof.
  unfold accepted_rows.
  induction 1 as [|[i r] df Hr _ IH]; [done|]. cbn [filter_accepted snd] in *.
  rewrite (getitem_col _ _ "Chain 1 Type" Hr) by solve_elem_of.
  rewrite (getitem_col _ _ "Chain 2 Type" Hr) by solve_elem_of.
  rewrite IH. cbn [mbind result_bind List.filter snd]. unfold accepted_row.
  by destruct (isin accepted_chains (col r "Chain 1 Type")
               && isin accepted_chains (col r "Chain 2 Type")).
Qed.

Lemma assign_cell_id_has_columns cols (df : DataFrame) :
  Forall (λ ir : nat * gmap string value, has_columns cols ir.2 = true) df →
  Forall (λ ir : nat * gmap string value, has_columns cols ir.2 = true)
         (assign_cell_id df).
Proof.
  rewrite !Forall_forall. intros H x Hx. unfold assign_cell_id in Hx.
  apply elem_of_lookup_imap in Hx as (pos & [i r] & -> & Hl).
  apply has_columns_insert. apply (H (i, r)). by eapply list_elem_of_lookup_2.
Qed.

Lemma curate_has_columns sm cols row :
  has_columns cols row = true → has_columns cols (curate sm row) = true.
Proof.
  intros H. unfold curate, CURATED_COLUMNS. cbn [foldl].
  by repeat apply curate_column_has_columns.
Qed.

Lemma curated_hold_strings_elem_of (df : DataFrame) c :
  curated_hold_strings df = true → c ∈ CURATED_COLUMNS →
  holds_string df c = true.
Proof.
  unfold curated_hold_strings. rewrite forallb_forall.
  intros H Hc. by apply H, list_elem_of_In.
Qed.

(** On a table with the columns of the export whose curated columns hold
    strings, [iedb_preprocess] returns, and what it returns is
    [preprocessed]. *)
Lemma iedb_preprocess_ok (sm : StringMethods) (df : DataFrame) :
  accepts_string_columns sm →
  frame_has_columns IEDB_COLUMNS df = true →
  curated_hold_strings (deduplicated df) = true →
  iedb_preprocess sm df = Ok (preprocessed sm df).
Proof.
  intros Hstr Hdf Hhs. unfold iedb_preprocess.
  pose proof (drop_duplicates_ok df Hdf) as Hdd.
  destruct (drop_duplicates None df) as [df0|]; [|done].
  cbn [mbind result_bind] in Hdd |- *. rewrite Hdd. cbn [mbind result_bind].
  apply frame_has_columns_Forall in Hdf.
  assert (Forall (λ ir : nat * gmap string value,
                    has_columns IEDB_COLUMNS ir.2 = true)
                 (deduplicated df)) as Hcols by by do 2 apply dedup_by_Forall.
  pose proof (curated_hold_strings_elem_of _ "Chain 1 CDR3 Curated" Hhs) as S1.
  pose proof (curated_hold_strings_elem_of _ "Chain 2 CDR3 Curated" Hhs) as S2.
  pose proof (curated_hold_strings_elem_of _ "Curated Chain 1 V Gene" Hhs) as S3.
  pose proof (curated_hold_strings_elem_of _ "Curated Chain 2 V Gene" Hhs) as S4.
  pose proof (curated_hold_strings_elem_of _ "Curated Chain 1 D Gene" Hhs) as S5.
  pose proof (curated_hold_strings_elem_of _ "Curated Chain 2 D Gene" Hhs) as S6.
  pose proof (curated_hold_strings_elem_of _ "Curated Chain 1 J Gene" Hhs) as S7.
  pose proof (curated_hold_strings_elem_of _ "Curated Chain 2 J Gene" Hhs) as S8.
  unfold preprocessed. clear Hdd Hhs Hdf.
  revert Hcols S1 S2 S3 S4 S5 S6 S7 S8.
  generalize (deduplicated df). intros dd Hcols S1 S2 S3 S4 S5 S6 S7 S8.
  specialize (S1 ltac:(solve_elem_of)). specialize (S2 ltac:(solve_elem_of)).
  specialize (S3 ltac:(solve_elem_of)). specialize (S4 ltac:(solve_elem_of)).
  specialize (S5 ltac:(solve_elem_of)). specialize (S6 ltac:(solve_elem_of)).
  specialize (S7 ltac:(solve_elem_of)). specialize (S8 ltac:(solve_elem_of)).
  assert (∀ (f : gmap string value → gmap string value) d,
            (∀ r, has_columns IEDB_COLUMNS r = true
                  → has_columns IEDB_COLUMNS (f r) = true) →
            Forall (λ ir : nat * gmap string value,
                      has_columns IEDB_COLUMNS ir.2 = true) d →
            Forall (λ ir : nat * gmap string value,
                      has_columns IEDB_COLUMNS ir.2 = true) (map_rows f d))
    as Hmap by (intros; by apply map_rows_has_columns).
  assert (∀ r a b, has_columns IEDB_COLUMNS r = true →
            has_columns IEDB_COLUMNS
              (curate_column sm (curate_column sm r a) b) = true) as Hcc
    by (intros; by do 2 apply curate_column_has_columns).
  assert (∀ a b c r, a ≠ c → b ≠ c → is_string (col r c) = true →
            is_string (col (curate_column sm (curate_column sm r a) b) c) = true)
    as Hkeep by (intros; by do 2 (apply curate_column_keeps_strings; [done|])).
  rewrite (replace_curated_ok sm Hstr);
    [|solve_elem_of|solve_elem_of|solve_elem_of|solve_elem_of|done
     |exact Hcols|exact S1|exact S2].
  cbn [mbind result_bind].
  rewrite (replace_curated_ok sm Hstr);
    [|solve_elem_of|solve_elem_of|solve_elem_of|solve_elem_of|done
     |repeat (apply Hmap; [intros; by apply Hcc|]); exact Hcols| |].
  2,3: repeat (apply holds_string_map_rows;
                 [intros r Hr; cbv beta; apply Hkeep; done|]);
       assumption.
  cbn [mbind result_bind].
  rewrite (replace_curated_ok sm Hstr);
    [|solve_elem_of|solve_elem_of|solve_elem_of|solve_elem_of|done
     |repeat (apply Hmap; [intros; by apply Hcc|]); exact Hcols| |].
  2,3: repeat (apply holds_string_map_rows;
                 [intros r Hr; cbv beta; apply Hkeep; done|]);
       assumption.
  cbn [mbind result_bind].
  rewrite (replace_curated_ok sm Hstr);
    [|solve_elem_of|solve_elem_of|solve_elem_of|solve_elem_of|done
     |repeat (apply Hmap; [intros; by apply Hcc|]); exact Hcols| |].
  2,3: repeat (apply holds_string_map_rows;
                 [intros r Hr; cbv beta; apply Hkeep; done|]);
       assumption.
  cbn [mbind result_bind].
  rewrite !map_rows_compose.
  rewrite filter_accepted_ok; [reflexivity|].
  apply assign_cell_id_has_columns, Hmap; [|exact Hcols].
  intros r Hr. by apply curate_has_columns.
Qed.

(** ** IEDB: the loop body computes [iedb_cell] *)

Lemma accepted_type_locus (t : value) :
  isin accepted_chains t = true →
  receptor_dict_getitem t = Ok (locus_of_type t).
Proof.
  destruct t as [|s| |]; try done. simpl. intros Hs%bool_decide_eq_true.
  unfold accepted_chains in Hs.
  repeat (apply elem_of_cons in Hs as [->|Hs]; [reflexivity|]).
  by apply not_elem_of_nil in Hs.
Qed.

Lemma iedb_row_ok (resolver : gmap string value → list string → value)
    (row : gmap string value) :
  has_columns IEDB_COLUMNS row = true →
  is_Some (row !! "cell_id") →
  accepted_row row = true →
  iedb_row resolver row = Ok (iedb_cell resolver row).
Proof.
  intros Hcols [id Hid] [Ht1 Ht2]%andb_prop. unfold iedb_row.
  rewrite (getitem_Some _ _ _ Hid).
  repeat (rewrite (getitem_col _ _ _ Hcols) by solve_elem_of).
  cbn [mbind result_bind].
  rewrite (accepted_type_locus _ Ht1), (accepted_type_locus _ Ht2).
  cbn [mbind result_bind foldlM]. unfold add_resolved.
  fold (iedb_chain1 row). fold (iedb_chain2 row).
  assert (∀ r, getitem (iedb_chain1 r) "locus" = Ok (col (iedb_chain1 r) "locus"))
    as -> by reflexivity.
  assert (∀ r, getitem (iedb_chain2 r) "locus" = Ok (col (iedb_chain2 r) "locus"))
    as -> by reflexivity.
  cbn [mbind result_bind]. unfold iedb_cell. by rewrite (col_lookup _ _ _ Hid).
Qed.

(** ** IEDB: the rows that reach the loop *)

Lemma curate_columns_lookup sm (cols : list string) (row : gmap string value) k :
  NoDup cols →
  (∀ c, c ∈ cols → str_replace "Curated" "Calculated" c ∉ cols) →
  foldl (curate_column sm) row cols !! k
  = if decide (k ∈ cols) then Some (backfilled sm row k) else row !! k.
Proof.
  intros Hnd. revert row.
  induction Hnd as [|c cols Hc Hnd IH]; intros row Hcalc.
  - by rewrite decide_False by apply not_elem_of_nil.
  - cbn [foldl]. rewrite IH.
    2:{ intros c' Hc' Hin. apply (Hcalc c'); by right. }
    destruct (decide (k ∈ cols)) as [Hk|Hk].
    + rewrite decide_True by (by right). f_equal.
      assert (k ≠ c) as Hne by (by intros ->).
      assert (str_replace "Curated" "Calculated" k ≠ c) as Hne'.
      { intros Heq. apply (Hcalc k); [by right|]. rewrite Heq. by left. }
      unfold backfilled, backfill, curate_column. by rewrite !col_insert_ne.
    + unfold curate_column at 1. destruct (decide (k = c)) as [->|Hne].
      * rewrite decide_True by (by left). by rewrite lookup_insert_eq.
      * rewrite decide_False by (by intros [?|?]%elem_of_cons).
        by rewrite lookup_insert_ne.
Qed.

Lemma curate_lookup sm (row : gmap string value) k :
  curate sm row !! k
  = if decide (k ∈ CURATED_COLUMNS) then Some (backfilled sm row k) else row !! k.
Proof.
  apply curate_columns_lookup.
  - apply (bool_decide_unpack _). by vm_compute.
  - intros c Hc.
    repeat (apply elem_of_cons in Hc as [->|Hc];
            [apply (bool_decide_unpack _); by vm_compute|]).
    by apply not_elem_of_nil in Hc.
Qed.

Lemma accepted_row_assigned sm (row : gmap string value) pos :
  accepted_row (<["cell_id" := VInt pos]> (curate sm row)) = accepted_row row.
Proof.
  unfold accepted_row, col.
  by rewrite !lookup_insert_ne, !curate_lookup, !decide_False
    by (first [done | apply (bool_decide_unpack _); by vm_compute]).
Qed.

Lemma read_csv_frame_elem_of (records : list (gmap string value)) i r :
  (i, r) ∈ read_csv_frame records ↔ records !! i = Some r.
Proof.
  unfold read_csv_frame. rewrite elem_of_lookup_imap. split.
  - by intros (i' & r' & [= -> ->] & H).
  - intros H. by exists i, r.
Qed.

(** Filtering a frame whose rows were changed in place, against filtering the
    frame itself: the same rows are kept, in the same order. *)
Lemma filter_imap_Forall2 {A B} (R : A → B → Prop) (f : nat → A → B)
    (p : B → bool) (q : A → bool) (l : list A) :
  (∀ n x, p (f n x) = q x) →
  (∀ n x, l !! n = Some x → R x (f n x)) →
  Forall2 R (List.filter q l) (List.filter p (imap f l)).
Proof.
  revert f. induction l as [|a l IH]; intros f Hp HR; [constructor|].
  cbn [imap List.filter]. rewrite Hp.
  assert (Forall2 R (List.filter q l) (List.filter p (imap (f ∘ S) l))) as Htl.
  { apply IH; [intros n x; apply Hp | intros n x Hx; by apply (HR (S n))]. }
  destruct (q a); [|exact Htl]. constructor; [by apply (HR 0)|exact Htl].
Qed.

(** The rows that reach the loop are the rows of the deduplicated frame with
    accepted chain types, in order, each with its curated columns treated and
    its position in the deduplicated frame as [cell_id]. *)
Lemma preprocessed_Forall2 sm (df : DataFrame) :
  Forall2
    (λ ir0 ir : nat * gmap string value,
       ∃ pos, deduplicated df !! pos = Some ir0
              ∧ ir = (ir0.1, <["cell_id" := VInt (Z.of_nat pos)]> (curate sm ir0.2)))
    (accepted_rows (deduplicated df)) (preprocessed sm df).
Proof.
  unfold preprocessed, accepted_rows, assign_cell_id, map_rows.
  rewrite imap_fmap. apply filter_imap_Forall2.
  - intros n [i r]. apply accepted_row_assigned.
  - intros n [i r] Hl. by exists n.
Qed.

Lemma preprocessed_elem_of sm (df : DataFrame) (ir' : nat * gmap string value) :
  ir' ∈ preprocessed sm df →
  ∃ pos row,
    deduplicated df !! pos = Some (ir'.1, row)
    ∧ ir'.2 = <["cell_id" := VInt (Z.of_nat pos)]> (curate sm row)
    ∧ accepted_row ir'.2 = true.
Proof.
  unfold preprocessed, accepted_rows.
  intros [Hin Hacc]%list_elem_of_In%filter_In.
  apply list_elem_of_In in Hin. unfold assign_cell_id, map_rows in Hin.
  apply elem_of_lookup_imap in Hin as (pos & [i r] & -> & Hl).
  apply list_lookup_fmap_Some in Hl as ([i0 r0] & [= -> ->] & Hl).
  by exists pos, r0.
Qed.

Lemma preprocessed_row_ok sm (df : DataFrame) (ir' : nat * gmap string value) :
  frame_has_columns IEDB_COLUMNS df = true →
  ir' ∈ preprocessed sm df →
  has_columns IEDB_COLUMNS ir'.2 = true
  ∧ is_Some (ir'.2 !! "cell_id")
  ∧ accepted_row ir'.2 = true.
Proof.
  intros Hdf%frame_has_columns_Forall Hin.
  destruct (preprocessed_elem_of _ _ _ Hin) as (pos & row & Hl & -> & Hacc).
  split_and!; [|by rewrite lookup_insert_eq|done].
  apply has_columns_insert, curate_has_columns.
  rewrite Forall_forall in Hdf.
  apply (Hdf (ir'.1, row)), deduplicated_elem_of.
  by eapply list_elem_of_lookup_2.
Qed.

(** From a row that reached the loop back to its source row. *)
Lemma preprocessed_source sm (df : DataFrame) (ir : nat * gmap string value) :
  ir ∈ preprocessed sm df →
  ∃ row0,
    (ir.1, row0) ∈ df
    ∧ (∀ c, c ∈ CURATED_COLUMNS → ir.2 !! c = Some (backfilled sm row0 c))
    ∧ (∀ k, k ∉ CURATED_COLUMNS → k ≠ "cell_id" → ir.2 !! k = row0 !! k).
Proof.
  intros Hir.
  destruct (preprocessed_elem_of _ _ _ Hir) as (pos & row0 & Hl & -> & _).
  exists row0. split_and!.
  - by eapply deduplicated_elem_of, list_elem_of_lookup_2.
  - intros c Hc. rewrite lookup_insert_ne, curate_lookup, decide_True; [done..|].
    intros <-. revert Hc. apply (bool_decide_unpack _). by vm_compute.
  - intros k Hk Hne. by rewrite lookup_insert_ne, curate_lookup, decide_False.
Qed.

(** On a table that [iedb] gets through, the loop returns the cells
    [iedb_cell] of the rows of [preprocessed]. *)
Lemma iedb_cells_ok (resolver : gmap string value → list string → value)
    (sm : StringMethods) (df : DataFrame) :
  accepts_string_columns sm →
  frame_has_columns IEDB_COLUMNS df = true →
  curated_hold_strings (deduplicated df) = true →
  iedb_cells resolver sm df
  = Ok ((λ ir, iedb_cell resolver ir.2) <$> preprocessed sm df).
Proof.
  intros Hstr Hdf Hhs. unfold iedb_cells.
  rewrite (iedb_preprocess_ok _ _ Hstr Hdf Hhs).
  cbn [mbind result_bind]. apply traverse_ok_fmap, Forall_forall.
  intros ir Hir. destruct (preprocessed_row_ok _ _ _ Hdf Hir) as (? & ? & ?).
  by apply iedb_row_ok.
Qed.

Lemma Forall2_fmap_self {A B} (R : A → B → Prop) (f : A → B) (l : list A) :
  Forall (λ x, R x (f x)) l → Forall2 R l (f <$> l).
Proof. induction 1; by constructor. Qed.

Lemma add_resolved_chains (resolver : gmap string value → list string → value)
    (cell cell' : AirrCell) (chain_dict : gmap string value) :
  add_resolved resolver cell chain_dict = Ok cell' →
  ∃ c, chains cell' = (chains cell ++ [c])%list.
Proof.
  unfold add_resolved. destruct (getitem chain_dict "locus"); [|discriminate].
  cbn [mbind result_bind]. intros [= <-]. cbn [chains add_chain]. eauto.
Qed.

(** Whenever the loop body of [iedb] returns, for whatever row, the cell has
    the two chains it added. *)
Lemma iedb_row_two_chains (resolver : gmap string value → list string → value)
    (row : gmap string value) (cell : AirrCell) :
  iedb_row resolver row = Ok cell → ∃ c1 c2, chains cell = [c1; c2].
Proof.
  unfold iedb_row. intros H.
  repeat match type of H with
         | (?m ≫= _) = Ok _ =>
             destruct m as [?|?];
             [cbn [mbind result_bind] in H | discriminate H]
         end.
  match type of H with
  | foldlM _ ?c0 [?c1; ?c2] = _ =>
      assert (chains c0 = []) as Hc0 by reflexivity;
      revert H Hc0; generalize c0 c1 c2
  end.
  intros c0 c1 c2 H Hc0. cbn [foldlM] in H.
  apply bind_Ok in H as (x & H1 & H). apply bind_Ok in H as (y & H2 & H).
  injection H as <-.
  apply add_resolved_chains in H1 as [d1 E1].
  apply add_resolved_chains in H2 as [d2 E2].
  rewrite E2, E1, Hc0. eauto.
Qed.

(** ** IEDB: the chains of a cell *)

Lemma iedb_chain1_fields (row : gmap string value) :
  iedb_chain1 row !! "locus" = Some (locus_of_type (col row "Chain 1 Type"))
  ∧ iedb_chain1 row !! "junction_aa" = Some (col row "Chain 1 CDR3 Curated")
  ∧ iedb_chain1 row !! "v_call" = Some (col row "Curated Chain 1 V Gene")
  ∧ iedb_chain1 row !! "d_call" = Some VNull
  ∧ iedb_chain1 row !! "j_call" = Some (col row "Curated Chain 1 J Gene").
Proof. repeat split; reflexivity. Qed.

Lemma iedb_chain2_fields (row : gmap string value) :
  iedb_chain2 row !! "locus" = Some (locus_of_type (col row "Chain 2 Type"))
  ∧ iedb_chain2 row !! "junction_aa" = Some (col row "Chain 2 CDR3 Curated")
  ∧ iedb_chain2 row !! "v_call" = Some (col row "Curated Chain 2 V Gene")
  ∧ iedb_chain2 row !! "d_call" = Some (col row "Curated Chain 2 D Gene")
  ∧ iedb_chain2 row !! "j_call" = Some (col row "Curated Chain 2 J Gene").
Proof. repeat split; reflexivity. Qed.

Lemma resolved_lookup_ne resolver (chain : gmap string value) k :
  k ≠ "locus" → resolved resolver chain !! k = chain !! k.
Proof.
  intros Hk. unfold resolved. destruct (isnull _); [|done].
  by rewrite lookup_insert_ne.
Qed.

Lemma resolved_null_locus resolver (chain : gmap string value) :
  chain !! "locus" = Some VNull →
  resolved resolver chain
  = <["locus" := resolver chain ["v_call"; "d_call"; "j_call"]]> chain.
Proof. intros H. unfold resolved. by rewrite (col_lookup _ _ _ H). Qed.

(** The two chains of the cell of a row that reached the loop. *)
Lemma iedb_cell_chains resolver (row : gmap string value) :
  chains (iedb_cell resolver row)
  = [resolved resolver (iedb_chain1 row); resolved resolver (iedb_chain2 row)].
Proof. reflexivity. Qed.

Lemma light_chain1_resolver_called resolver cols (row : gmap string value) :
  has_columns cols row = true →
  "Curated Chain 1 V Gene" ∈ cols → "Curated Chain 1 J Gene" ∈ cols →
  row !! "Chain 1 Type" = Some (VStr "light") →
  resolver_called_on resolver
    (row !! "Curated Chain 1 V Gene") (Some VNull)
    (row !! "Curated Chain 1 J Gene")
    (resolved resolver (iedb_chain1 row)).
Proof.
  intros Hcols Hv Hj Ht.
  destruct (iedb_chain1_fields row) as (Hl & _ & Hvc & Hdc & Hjc).
  rewrite (col_lookup _ _ _ Ht) in Hl. change (locus_of_type _) with VNull in Hl.
  exists (iedb_chain1 row).
  rewrite (lookup_col _ _ _ Hcols Hv), (lookup_col _ _ _ Hcols Hj).
  split_and!; [exact Hl | exact Hvc | exact Hdc | exact Hjc
              | apply resolved_null_locus, Hl
              | rewrite (resolved_null_locus _ _ Hl); apply lookup_insert_eq].
Qed.

Lemma light_chain2_resolver_called resolver cols (row : gmap string value) :
  has_columns cols row = true →
  "Curated Chain 2 V Gene" ∈ cols → "Curated Chain 2 D Gene" ∈ cols →
  "Curated Chain 2 J Gene" ∈ cols →
  row !! "Chain 2 Type" = Some (VStr "light") →
  resolver_called_on resolver
    (row !! "Curated Chain 2 V Gene") (row !! "Curated Chain 2 D Gene")
    (row !! "Curated Chain 2 J Gene")
    (resolved resolver (iedb_chain2 row)).
Proof.
  intros Hcols Hv Hd Hj Ht.
  destruct (iedb_chain2_fields row) as (Hl & _ & Hvc & Hdc & Hjc).
  rewrite (col_lookup _ _ _ Ht) in Hl. change (locus_of_type _) with VNull in Hl.
  exists (iedb_chain2 row).
  rewrite (lookup_col _ _ _ Hcols Hv), (lookup_col _ _ _ Hcols Hd),
    (lookup_col _ _ _ Hcols Hj).
  split_and!; [exact Hl | exact Hvc | exact Hdc | exact Hjc
              | apply resolved_null_locus, Hl
              | rewrite (resolved_null_locus _ _ Hl); apply lookup_insert_eq].
Qed.

(** C9.  Take a table that [iedb] gets through: it has the columns of the
    export, after the duplicate drops each curated column holds a string (so
    that pandas keeps it as a column of strings), and [.str] accepts such
    columns.  Then the loop of [iedb] returns one cell per row that reached
    it, and every one of these cells has exactly two chains, whatever is null
    in its row.  More generally, whenever the loop body returns a cell, for
    any row at all, the cell has two chains. *)
Theorem iedb_cells_have_two_chains
    (resolver : gmap string value → list string → value)
    (sm : StringMethods) (df : DataFrame) :
  accepts_string_columns sm →
  frame_has_columns IEDB_COLUMNS df = true →
  curated_hold_strings (deduplicated df) = true →
  ∃ df' cells,
    iedb_preprocess sm df = Ok df'
    ∧ iedb_cells resolver sm df = Ok cells
    ∧ List.length cells = List.length df'
    ∧ Forall (λ cell, ∃ c1 c2, chains cell = [c1; c2]) cells
    ∧ Forall (λ cell, List.length (chains cell) = 2) cells
    ∧ ∀ row cell, iedb_row resolver row = Ok cell →
                  List.length (chains cell) = 2.
Proof.
  intros Hstr Hdf Hhs.
  exists (preprocessed sm df),
    ((λ ir, iedb_cell resolver ir.2) <$> preprocessed sm df).
  split_and!.
  - by apply iedb_preprocess_ok.
  - by apply iedb_cells_ok.
  - by rewrite length_fmap.
  - apply Forall_fmap, Forall_true. intros ir. cbn [chains iedb_cell]. eauto.
  - apply Forall_fmap, Forall_true. by intros ir.
  - intros row cell (c1 & c2 & ->)%iedb_row_two_chains. done.
Qed.

Lemma iedb_cells_have_two_chains_witness :
  ∃ df' cells,
    iedb_preprocess ascii_string_methods (read_csv_frame iedb_example_records)
    = Ok df'
    ∧ iedb_cells infer_locus_from_gene_names ascii_string_methods
        (read_csv_frame iedb_example_records) = Ok cells
    ∧ List.length cells = List.length df'
    ∧ Forall (λ cell, ∃ c1 c2, chains cell = [c1; c2]) cells
    ∧ Forall (λ cell, List.length (chains cell) = 2) cells
    ∧ ∀ row cell, iedb_row infer_locus_from_gene_names row = Ok cell →
                  List.length (chains cell) = 2.
Proof.
  apply (iedb_cells_have_two_chains infer_locus_from_gene_names
           ascii_string_methods (read_csv_frame iedb_example_records)).
  - intros df c H. exact H.
  - vm_compute. reflexivity.
  - vm_compute. reflexivity.
Defined.

(** C2.  On a table that [iedb] gets through (as for C9) and for any
    resolver, the loop of [iedb] returns its cells (it does not abort); each
    cell has its two chains; and a chain whose type is "light" is the
    dictionary built from the row, on which the resolver was called with the
    keys [v_call], [d_call], [j_call] in this order, with the resolver's
    answer as its locus: when the answer is null, the chain is in the cell
    with a null locus. *)
Theorem iedb_light_chain_resolution
    (resolver : gmap string value → list string → value)
    (sm : StringMethods) (df : DataFrame) :
  accepts_string_columns sm →
  frame_has_columns IEDB_COLUMNS df = true →
  curated_hold_strings (deduplicated df) = true →
  ∃ df' cells,
    iedb_preprocess sm df = Ok df'
    ∧ iedb_cells resolver sm df = Ok cells
    ∧ Forall2
        (λ (ir : nat * gmap string value) cell,
           ∃ c1 c2,
             chains cell = [c1; c2]
             ∧ (ir.2 !! "Chain 1 Type" = Some (VStr "light") →
                resolver_called_on resolver
                  (ir.2 !! "Curated Chain 1 V Gene") (Some VNull)
                  (ir.2 !! "Curated Chain 1 J Gene") c1)
             ∧ (ir.2 !! "Chain 2 Type" = Some (VStr "light") →
                resolver_called_on resolver
                  (ir.2 !! "Curated Chain 2 V Gene")
                  (ir.2 !! "Curated Chain 2 D Gene")
                  (ir.2 !! "Curated Chain 2 J Gene") c2))
        df' cells.
Proof.
  intros Hstr Hdf Hhs.
  exists (preprocessed sm df),
    ((λ ir, iedb_cell resolver ir.2) <$> preprocessed sm df).
  split_and!; [by apply iedb_preprocess_ok | by apply iedb_cells_ok |].
  apply Forall2_fmap_self, Forall_forall. intros ir Hir.
  destruct (preprocessed_row_ok _ _ _ Hdf Hir) as (Hcols & _ & _).
  eexists _, _. split; [apply iedb_cell_chains|]. split; intros Ht.
  - eapply light_chain1_resolver_called; [exact Hcols|solve_elem_of..|exact Ht].
  - eapply light_chain2_resolver_called; [exact Hcols|solve_elem_of..|exact Ht].
Qed.

Lemma iedb_light_chain_resolution_witness :
  ∃ df' cells,
    iedb_preprocess ascii_string_methods (read_csv_frame iedb_example_records)
    = Ok df'
    ∧ iedb_cells infer_locus_from_gene_names ascii_string_methods
        (read_csv_frame iedb_example_records) = Ok cells
    ∧ Forall2
        (λ (ir : nat * gmap string value) cell,
           ∃ c1 c2,
             chains cell = [c1; c2]
             ∧ (ir.2 !! "Chain 1 Type" = Some (VStr "light") →
                resolver_called_on infer_locus_from_gene_names
                  (ir.2 !! "Curated Chain 1 V Gene") (Some VNull)
                  (ir.2 !! "Curated Chain 1 J Gene") c1)
             ∧ (ir.2 !! "Chain 2 Type" = Some (VStr "light") →
                resolver_called_on infer_locus_from_gene_names
                  (ir.2 !! "Curated Chain 2 V Gene")
                  (ir.2 !! "Curated Chain 2 D Gene")
                  (ir.2 !! "Curated Chain 2 J Gene") c2))
        df' cells.
Proof.
  apply (iedb_light_chain_resolution infer_locus_from_gene_names
           ascii_string_methods (read_csv_frame iedb_example_records)).
  - intros df c H. exact H.
  - vm_compute. reflexivity.
  - vm_compute. reflexivity.
Defined.

(** On the example table: the kappa light chain of record 1 is resolved to
    IGK and the lambda light chain of record 3, a first chain, to IGL, each
    from its V gene; the light chain of record 4 names no gene and is in its
    cell with a null locus. *)
Example iedb_example_light_chains :
  chain_fields "locus"
    (iedb_cells infer_locus_from_gene_names ascii_string_methods
       (read_csv_frame iedb_example_records))
  = Ok [[Some (VStr "IGH"); Some (VStr "IGK")];
        [Some (VStr "IGL"); Some (VStr "IGH")];
        [Some (VStr "IGH"); Some VNull];
        [Some (VStr "TRA"); Some (VStr "TRB")]].
Proof. vm_compute. reflexivity. Qed.

(** ** IEDB: from the source row to the chains *)

Lemma getitem_insert_ne (row : gmap string value) k k' v :
  k ≠ k' → getitem (<[k := v]> row) k' = getitem row k'.
Proof. intros. unfold getitem. by rewrite lookup_insert_ne. Qed.

Lemma infer_locus_skips_null_d_call (chain_dict : gmap string value) :
  chain_dict !! "d_call" = Some VNull →
  infer_locus_from_gene_names chain_dict ["v_call"; "d_call"; "j_call"]
  = infer_locus_from_gene_names chain_dict ["v_call"; "j_call"].
Proof. intros Hd. cbn. by rewrite Hd. Qed.

(** C10.  On a table that [iedb] gets through (as for C9) and for any
    resolver: in every cell the first chain has a null [d_call], whatever the
    source row holds as curated or calculated Chain 1 D gene, while the second
    chain has the [Curated Chain 2 D Gene] of its row, which is the source
    row's Chain 2 D gene (curated, else calculated) upper-cased; a first chain
    of type "light" comes from a call of the resolver on a dictionary with a
    null [d_call].  The loop body does not depend on the Chain 1 D gene
    columns at all, and the resolver of the spec, given a null [d_call],
    answers as it does on [v_call] and [j_call] alone. *)
Theorem iedb_chain1_d_call_null
    (resolver : gmap string value → list string → value)
    (sm : StringMethods) (df : DataFrame) :
  accepts_string_columns sm →
  frame_has_columns IEDB_COLUMNS df = true →
  curated_hold_strings (deduplicated df) = true →
  ∃ df' cells,
    iedb_preprocess sm df = Ok df'
    ∧ iedb_cells resolver sm df = Ok cells
    ∧ Forall2
        (λ (ir : nat * gmap string value) cell,
           ∃ row0 c1 c2,
             (ir.1, row0) ∈ df
             ∧ chains cell = [c1; c2]
             ∧ c1 !! "d_call" = Some VNull
             ∧ c2 !! "d_call" = ir.2 !! "Curated Chain 2 D Gene"
             ∧ c2 !! "d_call"
               = Some (str_upper_value sm (backfill row0 "Curated Chain 2 D Gene"))
             ∧ (ir.2 !! "Chain 1 Type" = Some (VStr "light") →
                resolver_called_on resolver
                  (ir.2 !! "Curated Chain 1 V Gene") (Some VNull)
                  (ir.2 !! "Curated Chain 1 J Gene") c1))
        df' cells
    ∧ (∀ row v w,
         iedb_row resolver
           (<["Curated Chain 1 D Gene" := v]>
              (<["Calculated Chain 1 D Gene" := w]> row))
         = iedb_row resolver row)
    ∧ (∀ chain_dict : gmap string value,
         chain_dict !! "d_call" = Some VNull →
         infer_locus_from_gene_names chain_dict ["v_call"; "d_call"; "j_call"]
         = infer_locus_from_gene_names chain_dict ["v_call"; "j_call"]).
Proof.
  intros Hstr Hdf Hhs.
  exists (preprocessed sm df),
    ((λ ir, iedb_cell resolver ir.2) <$> preprocessed sm df).
  split_and!; [by apply iedb_preprocess_ok | by apply iedb_cells_ok | | |].
  - apply Forall2_fmap_self, Forall_forall. intros ir Hir.
    destruct (preprocessed_row_ok _ _ _ Hdf Hir) as (Hcols & _ & _).
    destruct (preprocessed_source _ _ _ Hir) as (row0 & Hin & Hcur & _).
    assert (resolved resolver (iedb_chain2 ir.2) !! "d_call"
            = ir.2 !! "Curated Chain 2 D Gene") as Hd2.
    { rewrite resolved_lookup_ne by done.
      destruct (iedb_chain2_fields ir.2) as (_ & _ & _ & -> & _).
      symmetry. eapply lookup_col; [exact Hcols | solve_elem_of]. }
    exists row0. eexists _, _. split; [exact Hin|].
    split; [apply iedb_cell_chains|]. split_and!.
    + by rewrite resolved_lookup_ne.
    + exact Hd2.
    + rewrite Hd2. apply Hcur. solve_elem_of.
    + intros Ht.
      eapply light_chain1_resolver_called;
        [exact Hcols|solve_elem_of..|exact Ht].
  - intros row v w. unfold iedb_row.
    by rewrite !getitem_insert_ne by done.
  - apply infer_locus_skips_null_d_call.
Qed.

Lemma iedb_chain1_d_call_null_witness :
  ∃ df' cells,
    iedb_preprocess ascii_string_methods (read_csv_frame iedb_example_records)
    = Ok df'
    ∧ iedb_cells infer_locus_from_gene_names ascii_string_methods
        (read_csv_frame iedb_example_records) = Ok cells
    ∧ Forall2
        (λ (ir : nat * gmap string value) cell,
           ∃ row0 c1 c2,
             (ir.1, row0) ∈ read_csv_frame iedb_example_records
             ∧ chains cell = [c1; c2]
             ∧ c1 !! "d_call" = Some VNull
             ∧ c2 !! "d_call" = ir.2 !! "Curated Chain 2 D Gene"
             ∧ c2 !! "d_call"
               = Some (str_upper_value ascii_string_methods
                         (backfill row0 "Curated Chain 2 D Gene"))
             ∧ (ir.2 !! "Chain 1 Type" = Some (VStr "light") →
                resolver_called_on infer_locus_from_gene_names
                  (ir.2 !! "Curated Chain 1 V Gene") (Some VNull)
                  (ir.2 !! "Curated Chain 1 J Gene") c1))
        df' cells
    ∧ (∀ row v w,
         iedb_row infer_locus_from_gene_names
           (<["Curated Chain 1 D Gene" := v]>
              (<["Calculated Chain 1 D Gene" := w]> row))
         = iedb_row infer_locus_from_gene_names row)
    ∧ (∀ chain_dict : gmap string value,
         chain_dict !! "d_call" = Some VNull →
         infer_locus_from_gene_names chain_dict ["v_call"; "d_call"; "j_call"]
         = infer_locus_from_gene_names chain_dict ["v_call"; "j_call"]).
Proof.
  apply (iedb_chain1_d_call_null infer_locus_from_gene_names
           ascii_string_methods (read_csv_frame iedb_example_records)).
  - intros df c H. exact H.
  - vm_compute. reflexivity.
  - vm_compute. reflexivity.
Defined.

(** On the example table: records 1 and 3 have a curated Chain 1 D gene
    (IGHD3-10, IGHD1-1) and the first chains of their cells have a null
    [d_call]; record 3 is listed light chain first.  The second chains have
    the Chain 2 D gene: none for record 1, the calculated one upper-cased
    for record 3, the curated one for record 5. *)
Example iedb_example_d_calls :
  chain_fields "d_call"
    (iedb_cells infer_locus_from_gene_names ascii_string_methods
       (read_csv_frame iedb_example_records))
  = Ok [[Some VNull; Some VNull];
        [Some VNull; Some (VStr "IGHD6-19")];
        [Some VNull; Some VNull];
        [Some VNull; Some (VStr "TRBD2")]].
Proof. vm_compute. reflexivity. Qed.

(** ** IEDB: curated values, with the calculated ones as fallback *)

(** The calculated column that belongs to each curated column. *)
Lemma calculated_columns :
  str_replace "Curated" "Calculated" <$> CURATED_COLUMNS
  = ["Chain 1 CDR3 Calculated"; "Chain 2 CDR3 Calculated";
     "Calculated Chain 1 V Gene"; "Calculated Chain 2 V Gene";
     "Calculated Chain 1 D Gene"; "Calculated Chain 2 D Gene";
     "Calculated Chain 1 J Gene"; "Calculated Chain 2 J Gene"].
Proof. reflexivity. Qed.

Lemma backfill_null_curated (row : gmap string value) curated v :
  row !! curated = Some VNull →
  row !! str_replace "Curated" "Calculated" curated = Some v →
  backfill row curated = v.
Proof.
  intros Hc Hcalc. unfold backfill.
  by rewrite (col_lookup _ _ _ Hc), (col_lookup _ _ _ Hcalc).
Qed.

Lemma ascii_upper_letters (c : ascii) :
  (is_lower c = true → nat_of_ascii (ascii_upper c) + 32 = nat_of_ascii c)
  ∧ (is_lower c = false → ascii_upper c = c)
  ∧ is_lower (ascii_upper c) = false.
Proof.
  destruct c as [[] [] [] [] [] [] [] []]; vm_compute;
    split_and!; first [reflexivity | intros H; first [reflexivity | discriminate H]].
Qed.

Lemma ascii_str_upper_get (s : string) (i : nat) :
  String.get i (ascii_str_upper s) = ascii_upper <$> String.get i s.
Proof.
  revert i. induction s as [|c s IH]; intros i; [done|].
  destruct i as [|i]; [done|]. cbn [ascii_str_upper String.get]. apply IH.
Qed.

(** The fields of the two chains of the cell of a row that reached the
    loop, from the row. *)
Lemma iedb_cell_chain_fields resolver cols (row : gmap string value) :
  has_columns cols row = true →
  (∀ c, c ∈ CURATED_COLUMNS → c ∈ cols) →
  ∃ c1 c2,
    chains (iedb_cell resolver row) = [c1; c2]
    ∧ c1 !! "junction_aa" = row !! "Chain 1 CDR3 Curated"
    ∧ c1 !! "v_call" = row !! "Curated Chain 1 V Gene"
    ∧ c1 !! "j_call" = row !! "Curated Chain 1 J Gene"
    ∧ c2 !! "junction_aa" = row !! "Chain 2 CDR3 Curated"
    ∧ c2 !! "v_call" = row !! "Curated Chain 2 V Gene"
    ∧ c2 !! "d_call" = row !! "Curated Chain 2 D Gene"
    ∧ c2 !! "j_call" = row !! "Curated Chain 2 J Gene".
Proof.
  intros Hcols Hsub.
  assert (∀ c, c ∈ CURATED_COLUMNS → Some (col row c) = row !! c) as Hc.
  { intros c Hc. symmetry. eapply lookup_col; [exact Hcols | by apply Hsub]. }
  destruct (iedb_chain1_fields row) as (_ & Hj1 & Hv1 & _ & Hjc1).
  destruct (iedb_chain2_fields row) as (_ & Hj2 & Hv2 & Hd2 & Hjc2).
  eexists _, _. split; [apply iedb_cell_chains|].
  rewrite !resolved_lookup_ne by done.
  rewrite Hj1, Hv1, Hjc1, Hj2, Hv2, Hd2, Hjc2.
  split_and!; apply Hc; solve_elem_of.
Qed.

Lemma curated_columns_in_export c : c ∈ CURATED_COLUMNS → c ∈ IEDB_COLUMNS.
Proof.
  intros Hc. unfold CURATED_COLUMNS in Hc.
  repeat (apply elem_of_cons in Hc as [->|Hc]; [solve_elem_of|]).
  by apply not_elem_of_nil in Hc.
Qed.

Lemma curated_lookup sm (row0 : gmap string value) pos c :
  c ∈ CURATED_COLUMNS →
  <["cell_id" := VInt pos]> (curate sm row0) !! c
  = Some (str_upper_value sm (backfill row0 c)).
Proof.
  intros Hc. rewrite lookup_insert_ne, curate_lookup, decide_True; [done..|].
  intros <-. revert Hc. apply (bool_decide_unpack _). by vm_compute.
Qed.

(** C3.  Take a table that [iedb] gets through (as for C9), with a
    [str.upper] that upper-cases ASCII strings letter by letter.  The rows
    that reach the loop of [iedb] are the rows of the deduplicated table with
    accepted chain types, each of them, in order.  In such a row each of the
    eight curated columns (CDR3, V, D and J gene of both chains) holds the
    source row's curated value, or its calculated value where the curated one
    is null, upper-cased by [str.upper]: for an ASCII string, every letter
    a-z replaced by its capital and every other character kept.  A value that
    is not a string comes out of [.str.upper()] as a null.  The other columns
    are as in the source row.  The chains' [junction_aa], [v_call], [d_call]
    and [j_call] are these values: in particular a null curated V gene with
    calculated V gene [s] gives the [v_call] [s] upper-cased. *)
Theorem iedb_curated_backfill_upper
    (resolver : gmap string value → list string → value)
    (sm : StringMethods) (df : DataFrame) :
  accepts_string_columns sm →
  upper_on_ascii sm →
  frame_has_columns IEDB_COLUMNS df = true →
  curated_hold_strings (deduplicated df) = true →
  ∃ df' cells,
    iedb_preprocess sm df = Ok df'
    ∧ iedb_cells resolver sm df = Ok cells
    ∧ Forall2
        (λ (ir0 ir : nat * gmap string value),
           ir.1 = ir0.1
           ∧ (∀ c, c ∈ CURATED_COLUMNS →
                ir.2 !! c = Some (str_upper_value sm (backfill ir0.2 c)))
           ∧ (∀ c s, c ∈ CURATED_COLUMNS →
                backfill ir0.2 c = VStr s →
                ir.2 !! c = Some (VStr (str_upper sm s))
                ∧ (is_ascii s = true →
                   ir.2 !! c = Some (VStr (ascii_str_upper s))))
           ∧ (∀ k, k ∉ CURATED_COLUMNS → k ≠ "cell_id" →
                ir.2 !! k = ir0.2 !! k))
        (accepted_rows (deduplicated df)) df'
    ∧ Forall2
        (λ (ir0 : nat * gmap string value) cell,
           ∃ c1 c2,
             chains cell = [c1; c2]
             ∧ c1 !! "junction_aa"
               = Some (str_upper_value sm (backfill ir0.2 "Chain 1 CDR3 Curated"))
             ∧ c1 !! "v_call"
               = Some (str_upper_value sm (backfill ir0.2 "Curated Chain 1 V Gene"))
             ∧ c1 !! "j_call"
               = Some (str_upper_value sm (backfill ir0.2 "Curated Chain 1 J Gene"))
             ∧ c2 !! "junction_aa"
               = Some (str_upper_value sm (backfill ir0.2 "Chain 2 CDR3 Curated"))
             ∧ c2 !! "v_call"
               = Some (str_upper_value sm (backfill ir0.2 "Curated Chain 2 V Gene"))
             ∧ c2 !! "d_call"
               = Some (str_upper_value sm (backfill ir0.2 "Curated Chain 2 D Gene"))
             ∧ c2 !! "j_call"
               = Some (str_upper_value sm (backfill ir0.2 "Curated Chain 2 J Gene"))
             ∧ (∀ s, ir0.2 !! "Curated Chain 1 V Gene" = Some VNull →
                     ir0.2 !! "Calculated Chain 1 V Gene" = Some (VStr s) →
                     c1 !! "v_call" = Some (VStr (str_upper sm s))
                     ∧ (is_ascii s = true →
                        c1 !! "v_call" = Some (VStr (ascii_str_upper s))))
             ∧ (∀ s, ir0.2 !! "Curated Chain 2 V Gene" = Some VNull →
                     ir0.2 !! "Calculated Chain 2 V Gene" = Some (VStr s) →
                     c2 !! "v_call" = Some (VStr (str_upper sm s))
                     ∧ (is_ascii s = true →
                        c2 !! "v_call" = Some (VStr (ascii_str_upper s)))))
        (accepted_rows (deduplicated df)) cells
    ∧ (∀ s i, String.get i (ascii_str_upper s) = ascii_upper <$> String.get i s)
    ∧ (∀ c, (is_lower c = true
             → nat_of_ascii (ascii_upper c) + 32 = nat_of_ascii c)
            ∧ (is_lower c = false → ascii_upper c = c)).
Proof.
  intros Hstr Hup Hdf Hhs.
  exists (preprocessed sm df),
    ((λ ir, iedb_cell resolver ir.2) <$> preprocessed sm df).
  split_and!.
  - by apply iedb_preprocess_ok.
  - by apply iedb_cells_ok.
  - eapply Forall2_impl; [apply preprocessed_Forall2|].
    intros ir0 ir (pos & Hl & ->). cbn [fst snd]. split_and!.
    + done.
    + intros c Hc. by apply curated_lookup.
    + intros c s Hc Hb. rewrite curated_lookup, Hb by done.
      cbn [str_upper_value]. split; [done|]. intros Has. by rewrite Hup.
    + intros k Hk Hne. by rewrite lookup_insert_ne, curate_lookup, decide_False.
  - apply Forall2_fmap_r. eapply Forall2_impl; [apply preprocessed_Forall2|].
    intros ir0 ir (pos & Hl & ->). cbn [snd].
    assert (has_columns IEDB_COLUMNS
              (<["cell_id" := VInt (Z.of_nat pos)]> (curate sm ir0.2)) = true)
      as Hcols.
    { apply has_columns_insert, curate_has_columns.
      apply frame_has_columns_Forall in Hdf. rewrite Forall_forall in Hdf.
      apply Hdf, deduplicated_elem_of. by eapply list_elem_of_lookup_2. }
    destruct (iedb_cell_chain_fields resolver _ _ Hcols curated_columns_in_export)
      as (c1 & c2 & Hch & F1 & F2 & F3 & F4 & F5 & F6 & F7).
    rewrite curated_lookup in F1, F2, F3, F4, F5, F6, F7 by solve_elem_of.
    exists c1, c2. split_and!; try assumption.
    + intros s Hn Hc. rewrite F2.
      rewrite (backfill_null_curated _ "Curated Chain 1 V Gene" _ Hn Hc).
      cbn [str_upper_value]. split; [done|]. intros Has. by rewrite Hup.
    + intros s Hn Hc. rewrite F5.
      rewrite (backfill_null_curated _ "Curated Chain 2 V Gene" _ Hn Hc).
      cbn [str_upper_value]. split; [done|]. intros Has. by rewrite Hup.
  - apply ascii_str_upper_get.
  - intros c. destruct (ascii_upper_letters c) as (? & ? & ?). by split.
Qed.

Lemma iedb_curated_backfill_upper_witness :
  ∃ df' cells,
    iedb_preprocess ascii_string_methods (read_csv_frame iedb_example_records)
    = Ok df'
    ∧ iedb_cells infer_locus_from_gene_names ascii_string_methods
        (read_csv_frame iedb_example_records) = Ok cells
    ∧ Forall2
        (λ (ir0 ir : nat * gmap string value),
           ir.1 = ir0.1
           ∧ (∀ c, c ∈ CURATED_COLUMNS →
                ir.2 !! c
                = Some (str_upper_value ascii_string_methods (backfill ir0.2 c)))
           ∧ (∀ c s, c ∈ CURATED_COLUMNS →
                backfill ir0.2 c = VStr s →
                ir.2 !! c = Some (VStr (str_upper ascii_string_methods s))
                ∧ (is_ascii s = true →
                   ir.2 !! c = Some (VStr (ascii_str_upper s))))
           ∧ (∀ k, k ∉ CURATED_COLUMNS → k ≠ "cell_id" →
                ir.2 !! k = ir0.2 !! k))
        (accepted_rows (deduplicated (read_csv_frame iedb_example_records))) df'
    ∧ Forall2
        (λ (ir0 : nat * gmap string value) cell,
           ∃ c1 c2,
             chains cell = [c1; c2]
             ∧ c1 !! "junction_aa"
               = Some (str_upper_value ascii_string_methods
                         (backfill ir0.2 "Chain 1 CDR3 Curated"))
             ∧ c1 !! "v_call"
               = Some (str_upper_value ascii_string_methods
                         (backfill ir0.2 "Curated Chain 1 V Gene"))
             ∧ c1 !! "j_call"
               = Some (str_upper_value ascii_string_methods
                         (backfill ir0.2 "Curated Chain 1 J Gene"))
             ∧ c2 !! "junction_aa"
               = Some (str_upper_value ascii_string_methods
                         (backfill ir0.2 "Chain 2 CDR3 Curated"))
             ∧ c2 !! "v_call"
               = Some (str_upper_value ascii_string_methods
                         (backfill ir0.2 "Curated Chain 2 V Gene"))
             ∧ c2 !! "d_call"
               = Some (str_upper_value ascii_string_methods
                         (backfill ir0.2 "Curated Chain 2 D Gene"))
             ∧ c2 !! "j_call"
               = Some (str_upper_value ascii_string_methods
                         (backfill ir0.2 "Curated Chain 2 J Gene"))
             ∧ (∀ s, ir0.2 !! "Curated Chain 1 V Gene" = Some VNull →
                     ir0.2 !! "Calculated Chain 1 V Gene" = Some (VStr s) →
                     c1 !! "v_call"
                     = Some (VStr (str_upper ascii_string_methods s))
                     ∧ (is_ascii s = true →
                        c1 !! "v_call" = Some (VStr (ascii_str_upper s))))
             ∧ (∀ s, ir0.2 !! "Curated Chain 2 V Gene" = Some VNull →
                     ir0.2 !! "Calculated Chain 2 V Gene" = Some (VStr s) →
                     c2 !! "v_call"
                     = Some (VStr (str_upper ascii_string_methods s))
                     ∧ (is_ascii s = true →
                        c2 !! "v_call" = Some (VStr (ascii_str_upper s)))))
        (accepted_rows (deduplicated (read_csv_frame iedb_example_records)))
        cells
    ∧ (∀ s i, String.get i (ascii_str_upper s) = ascii_upper <$> String.get i s)
    ∧ (∀ c, (is_lower c = true
             → nat_of_ascii (ascii_upper c) + 32 = nat_of_ascii c)
            ∧ (is_lower c = false → ascii_upper c = c)).
Proof.
  apply (iedb_curated_backfill_upper infer_locus_from_gene_names
           ascii_string_methods (read_csv_frame iedb_example_records)).
  - intros df c H. exact H.
  - intros s H. reflexivity.
  - vm_compute. reflexivity.
  - vm_compute. reflexivity.
Defined.

(** On the example table: record 1 has no curated heavy-chain V gene and the
    calculated one is ighv1-69*01; its light-chain CDR3 is the calculated
    qqsystplt.  The rows that reach the loop are the four deduplicated rows
    with two accepted chain types. *)
Example iedb_example_v_calls :
  chain_fields "v_call"
    (iedb_cells infer_locus_from_gene_names ascii_string_methods
       (read_csv_frame iedb_example_records))
  = Ok [[Some (VStr "IGHV1-69*01"); Some (VStr "IGKV1-5")];
        [Some (VStr "IGLV2-14"); Some (VStr "IGHV4-34")];
        [Some VNull; Some VNull];
        [Some (VStr "TRAV12-2"); Some (VStr "TRBV6-5")]].
Proof. vm_compute. reflexivity. Qed.

Example iedb_example_junctions :
  chain_fields "junction_aa"
    (iedb_cells infer_locus_from_gene_names ascii_string_methods
       (read_csv_frame iedb_example_records))
  = Ok [[Some (VStr "ARDYYGSSYFDY"); Some (VStr "QQSYSTPLT")];
        [Some (VStr "QSYDSSLSGSV"); Some (VStr "ARGGYSSGWYFDV")];
        [Some (VStr "ARGGY"); Some (VStr "QQWSSNPLT")];
        [Some (VStr "CAVNTGNQFYF"); Some (VStr "CASSLAPGATNEKLFF")]].
Proof. vm_compute. reflexivity. Qed.

(** ** IEDB: duplicates on the key columns *)

Lemma dedup_by_NoDup {K : Type} `{EqDecision K}
    (key : gmap string value → K) (seen : list K) (df : DataFrame) :
  NoDup ((λ ir : nat * gmap string value, key ir.2) <$> dedup_by key seen df)
  ∧ ∀ ir, ir ∈ dedup_by key seen df → key ir.2 ∉ seen.
Proof.
  revert seen. induction df as [|x df IH]; intros seen; cbn [dedup_by].
  - split; [constructor | by intros ir ?%not_elem_of_nil].
  - destruct (decide (key x.2 ∈ seen)) as [Hin|Hnin]; [apply IH|].
    destruct (IH (key x.2 :: seen)) as [Hnd Hseen]. split.
    + cbn. constructor; [|done].
      intros (y & Hy & Hyin)%list_elem_of_fmap.
      apply (Hseen y Hyin). rewrite Hy. by left.
    + intros ir [->|Hir]%elem_of_cons; [done|].
      intros Hk. apply (Hseen ir Hir). by right.
Qed.

Lemma NoDup_fmap_elem_inj {A B} (f : A → B) (l : list A) x y :
  NoDup (f <$> l) → x ∈ l → y ∈ l → f x = f y → x = y.
Proof.
  induction l as [|a l IH]; cbn; [by intros _ ?%not_elem_of_nil|].
  intros [Ha Hnd]%NoDup_cons [->|Hx]%elem_of_cons [->|Hy]%elem_of_cons Heq.
  - done.
  - destruct Ha. rewrite Heq. by apply list_elem_of_fmap_2.
  - destruct Ha. rewrite <- Heq. by apply list_elem_of_fmap_2.
  - by apply IH.
Qed.

Lemma dedup_key_ext (r1 r2 : gmap string value) :
  (∀ c, c ∈ DEDUP_SUBSET → r1 !! c = r2 !! c) → dedup_key r1 = dedup_key r2.
Proof.
  intros H. unfold dedup_key. apply list_fmap_ext.
  intros i c Hc. unfold col. rewrite H; [done|].
  by eapply list_elem_of_lookup_2.
Qed.

(** C4.  For a table read from a file that [iedb] gets through (as for C9):
    two records at different positions that agree on the seven key columns
    (nulls agreeing with nulls) do not both have their row in the frame that
    the loop of [iedb] iterates over. *)
Theorem iedb_key_duplicates_dropped
    (sm : StringMethods) (records : list (gmap string value)) (i j : nat)
    (ri rj : gmap string value) :
  accepts_string_columns sm →
  frame_has_columns IEDB_COLUMNS (read_csv_frame records) = true →
  curated_hold_strings (deduplicated (read_csv_frame records)) = true →
  i ≠ j →
  records !! i = Some ri →
  records !! j = Some rj →
  (∀ c, c ∈ DEDUP_SUBSET → ri !! c = rj !! c) →
  ∃ df',
    iedb_preprocess sm (read_csv_frame records) = Ok df'
    ∧ ¬ (i ∈ df'.*1 ∧ j ∈ df'.*1).
Proof.
  intros Hstr Hdf Hhs Hij Hi Hj Hkey.
  exists (preprocessed sm (read_csv_frame records)).
  split; [by apply iedb_preprocess_ok|].
  intros [([i' ri'] & -> & Hini)%list_elem_of_fmap
          ([j' rj'] & -> & Hinj)%list_elem_of_fmap].
  cbn [fst] in *.
  destruct (preprocessed_elem_of _ _ _ Hini) as (pi & ri0 & Hli & _).
  destruct (preprocessed_elem_of _ _ _ Hinj) as (pj & rj0 & Hlj & _).
  cbn [fst] in *.
  apply list_elem_of_lookup_2 in Hli, Hlj.
  assert (ri0 = ri) as ->.
  { apply deduplicated_elem_of, read_csv_frame_elem_of in Hli. congruence. }
  assert (rj0 = rj) as ->.
  { apply deduplicated_elem_of, read_csv_frame_elem_of in Hlj. congruence. }
  destruct (dedup_by_NoDup dedup_key []
              (dedup_by (λ row, row) [] (read_csv_frame records))) as [Hnd _].
  pose proof (NoDup_fmap_elem_inj _ _ _ _ Hnd Hli Hlj
                (dedup_key_ext _ _ Hkey)) as Heq.
  by injection Heq.
Qed.

Lemma iedb_key_duplicates_dropped_witness :
  ∃ df',
    iedb_preprocess ascii_string_methods (read_csv_frame iedb_example_records)
    = Ok df'
    ∧ ¬ (1 ∈ df'.*1 ∧ 2 ∈ df'.*1).
Proof.
  apply (iedb_key_duplicates_dropped ascii_string_methods iedb_example_records
           1 2 iedb_heavy_kappa iedb_heavy_kappa_again).
  - intros df c H. exact H.
  - vm_compute. reflexivity.
  - vm_compute. reflexivity.
  - lia.
  - reflexivity.
  - reflexivity.
  - intros c Hc. unfold DEDUP_SUBSET in Hc.
    repeat (apply elem_of_cons in Hc as [->|Hc]; [reflexivity|]).
    by apply not_elem_of_nil in Hc.
Defined.

(** On the example table: records 1 and 2 share the key; record 1, the first
    of them, is kept and record 2 is dropped.  Record 0 has no second chain
    and is filtered out. *)
Example iedb_example_survivors :
  match iedb_preprocess ascii_string_methods
          (read_csv_frame iedb_example_records) with
  | Ok df' => Ok (df'.*1)
  | Raise e => Raise e
  end = Ok [1; 3; 4; 5].
Proof. vm_compute. reflexivity. Qed.

(** ** IEDB: cell identifiers *)

Lemma filter_bool_sublist {A} (p : A → bool) (l : list A) :
  List.filter p l `sublist_of` l.
Proof.
  induction l as [|a l IH]; cbn; [constructor|].
  destruct (p a); by constructor.
Qed.

Lemma filter_bool_all {A} (p : A → bool) (l : list A) :
  List.length (List.filter p l) = List.length l ↔ List.filter p l = l.
Proof.
  split; [|by intros ->].
  induction l as [|a l IH]; cbn [List.filter]; [done|].
  pose proof (filter_length_le p l) as Hle.
  destruct (p a); cbn [List.length]; intros H.
  - f_equal. apply IH. lia.
  - lia.
Qed.

Lemma enumerate_fst (df : DataFrame) :
  (enumerate df).*1 = seq 0 (List.length df).
Proof.
  unfold enumerate. rewrite fmap_imap.
  rewrite (imap_ext _ (λ n _, n)) by done.
  by rewrite imap_seq_0, list_fmap_id.
Qed.

Lemma filter_imap_fmap {A B C D} (f : nat → A → B) (g : nat → A → C)
    (p : B → bool) (q : C → bool) (h : B → D) (k : C → D) (l : list A) :
  (∀ n x, p (f n x) = q (g n x)) →
  (∀ n x, h (f n x) = k (g n x)) →
  h <$> List.filter p (imap f l) = k <$> List.filter q (imap g l).
Proof.
  revert f g. induction l as [|a l IH]; intros f g Hp Hh; [done|].
  cbn [imap List.filter]. rewrite Hp.
  destruct (q (g 0 a)); cbn [fmap list_fmap]; rewrite ?Hh;
    [f_equal|]; (apply IH; intros n x; cbn; [apply Hp|apply Hh]).
Qed.

Lemma accepted_positions_length (df : DataFrame) :
  List.length (accepted_positions df) = List.length (accepted_rows df).
Proof.
  unfold accepted_positions, accepted_rows, enumerate. rewrite length_fmap.
  symmetry. eapply Forall2_length.
  by apply (filter_imap_Forall2 (λ _ _, True)).
Qed.

Lemma accepted_positions_all (df : DataFrame) :
  accepted_rows df = df → accepted_positions df = seq 0 (List.length df).
Proof.
  intros Hall. rewrite <- enumerate_fst. unfold accepted_positions. f_equal.
  apply filter_bool_all. rewrite <- (length_fmap fst).
  fold (accepted_positions df).
  rewrite accepted_positions_length, Hall.
  unfold enumerate. by rewrite length_imap.
Qed.

Lemma preprocessed_cell_ids sm (df : DataFrame) :
  (λ ir : nat * gmap string value, col ir.2 "cell_id") <$> preprocessed sm df
  = (λ pos, VInt (Z.of_nat pos)) <$> accepted_positions (deduplicated df).
Proof.
  unfold preprocessed, accepted_rows, accepted_positions, assign_cell_id,
    enumerate, map_rows.
  rewrite imap_fmap, <- list_fmap_compose.
  apply filter_imap_fmap; intros n [i r]; cbn [fst snd compose].
  - apply accepted_row_assigned.
  - apply col_insert_eq.
Qed.

(** C5, with the identifiers as the code assigns them.  On a table that
    [iedb] gets through (as for C9), the cell of a row has as identifier the
    position of that row in the frame after both duplicate drops,
    [deduplicated df].  The identifiers of the cells returned are therefore
    the positions of the rows with accepted chain types, in increasing order,
    a selection from [0, ..., n - 1] for [n] the length of the deduplicated
    frame.  When the chain-type filter removes no row they are
    [0, ..., n - 1], one per cell; and they are [0, ..., n - 1] only then. *)
Theorem iedb_cell_ids
    (resolver : gmap string value → list string → value)
    (sm : StringMethods) (df : DataFrame) :
  accepts_string_columns sm →
  frame_has_columns IEDB_COLUMNS df = true →
  curated_hold_strings (deduplicated df) = true →
  ∃ df' cells,
    (drop_duplicates None df ≫= drop_duplicates (Some DEDUP_SUBSET))
    = Ok (deduplicated df)
    ∧ iedb_preprocess sm df = Ok df'
    ∧ iedb_cells resolver sm df = Ok cells
    ∧ Forall2
        (λ (ir : nat * gmap string value) cell,
           ∃ pos row0,
             deduplicated df !! pos = Some (ir.1, row0)
             ∧ cell_id cell = VInt (Z.of_nat pos))
        df' cells
    ∧ cell_id <$> cells
      = (λ pos, VInt (Z.of_nat pos)) <$> accepted_positions (deduplicated df)
    ∧ accepted_positions (deduplicated df)
      `sublist_of` seq 0 (List.length (deduplicated df))
    ∧ (accepted_rows (deduplicated df) = deduplicated df →
       List.length cells = List.length (deduplicated df)
       ∧ cell_id <$> cells
         = (λ pos, VInt (Z.of_nat pos)) <$> seq 0 (List.length cells))
    ∧ (cell_id <$> cells
       = (λ pos, VInt (Z.of_nat pos)) <$> seq 0 (List.length (deduplicated df))
       → accepted_rows (deduplicated df) = deduplicated df).
Proof.
  intros Hstr Hdf Hhs.
  exists (preprocessed sm df),
    ((λ ir, iedb_cell resolver ir.2) <$> preprocessed sm df).
  assert (cell_id <$> ((λ ir, iedb_cell resolver ir.2) <$> preprocessed sm df)
          = (λ pos, VInt (Z.of_nat pos)) <$> accepted_positions (deduplicated df))
    as Hids.
  { rewrite <- list_fmap_compose. apply preprocessed_cell_ids. }
  split_and!.
  - by apply drop_duplicates_ok.
  - by apply iedb_preprocess_ok.
  - by apply iedb_cells_ok.
  - apply Forall2_fmap_self, Forall_forall. intros ir Hir.
    destruct (preprocessed_elem_of _ _ _ Hir) as (pos & row0 & Hl & Hrow & _).
    exists pos, row0. split; [exact Hl|]. cbn [cell_id iedb_cell].
    rewrite Hrow. apply col_insert_eq.
  - exact Hids.
  - unfold accepted_positions. rewrite <- enumerate_fst.
    apply fmap_sublist, filter_bool_sublist.
  - intros Hall.
    assert (List.length ((λ ir, iedb_cell resolver ir.2) <$> preprocessed sm df)
            = List.length (deduplicated df)) as Hlen.
    { rewrite <- (length_fmap cell_id), Hids, length_fmap.
      by rewrite accepted_positions_length, Hall. }
    split; [exact Hlen|]. rewrite Hlen, Hids. f_equal.
    by apply accepted_positions_all.
  - intros E. apply filter_bool_all. fold (accepted_rows (deduplicated df)).
    rewrite <- accepted_positions_length.
    apply (f_equal List.length) in E.
    by rewrite Hids, !length_fmap, length_seq in E.
Qed.

Lemma iedb_cell_ids_witness :
  accepted_rows (deduplicated (read_csv_frame iedb_paired_records))
  = deduplicated (read_csv_frame iedb_paired_records)
  ∧ ∃ df' cells,
      (drop_duplicates None (read_csv_frame iedb_paired_records)
         ≫= drop_duplicates (Some DEDUP_SUBSET))
      = Ok (deduplicated (read_csv_frame iedb_paired_records))
      ∧ iedb_preprocess ascii_string_methods
          (read_csv_frame iedb_paired_records) = Ok df'
      ∧ iedb_cells infer_locus_from_gene_names ascii_string_methods
          (read_csv_frame iedb_paired_records) = Ok cells
      ∧ Forall2
          (λ (ir : nat * gmap string value) cell,
             ∃ pos row0,
               deduplicated (read_csv_frame iedb_paired_records) !! pos
               = Some (ir.1, row0)
               ∧ cell_id cell = VInt (Z.of_nat pos))
          df' cells
      ∧ cell_id <$> cells
        = (λ pos, VInt (Z.of_nat pos))
            <$> accepted_positions
                  (deduplicated (read_csv_frame iedb_paired_records))
      ∧ accepted_positions (deduplicated (read_csv_frame iedb_paired_records))
        `sublist_of`
          seq 0 (List.length (deduplicated (read_csv_frame iedb_paired_records)))
      ∧ (accepted_rows (deduplicated (read_csv_frame iedb_paired_records))
         = deduplicated (read_csv_frame iedb_paired_records) →
         List.length cells
         = List.length (deduplicated (read_csv_frame iedb_paired_records))
         ∧ cell_id <$> cells
           = (λ pos, VInt (Z.of_nat pos)) <$> seq 0 (List.length cells))
      ∧ (cell_id <$> cells
         = (λ pos, VInt (Z.of_nat pos))
             <$> seq 0 (List.length
                          (deduplicated (read_csv_frame iedb_paired_records)))
         → accepted_rows (deduplicated (read_csv_frame iedb_paired_records))
           = deduplicated (read_csv_frame iedb_paired_records)).
Proof.
  split.
  - apply (bool_decide_unpack _). by vm_compute.
  - apply (iedb_cell_ids infer_locus_from_gene_names ascii_string_methods
             (read_csv_frame iedb_paired_records)).
    + intros df c H. exact H.
    + vm_compute. reflexivity.
    + vm_compute. reflexivity.
Defined.

(** On the table of paired records no row is filtered out and the
    identifiers are 0, 1, 2, 3. *)
Example iedb_paired_cell_ids :
  cell_ids (iedb_cells infer_locus_from_gene_names ascii_string_methods
              (read_csv_frame iedb_paired_records))
  = Ok [VInt 0; VInt 1; VInt 2; VInt 3].
Proof. vm_compute. reflexivity. Qed.

(** C5 as stated fails on the second half.  On the example table every
    curated column holds a string, so [iedb] gets through it; the first row
    after the duplicate drops has no second chain and is filtered out after
    the identifiers were assigned, so the four cells returned have the
    identifiers 1, 2, 3, 4, not 0, 1, 2, 3. *)
Lemma iedb_example_cell_ids_not_from_zero :
  frame_has_columns IEDB_COLUMNS (read_csv_frame iedb_example_records) = true
  ∧ curated_hold_strings
      (deduplicated (read_csv_frame iedb_example_records)) = true
  ∧ ∃ cells,
      iedb_cells infer_locus_from_gene_names ascii_string_methods
        (read_csv_frame iedb_example_records) = Ok cells
      ∧ cell_id <$> cells = [VInt 1; VInt 2; VInt 3; VInt 4]
      ∧ cell_id <$> cells
        ≠ (λ pos, VInt (Z.of_nat pos)) <$> seq 0 (List.length cells).
Proof.
  assert (frame_has_columns IEDB_COLUMNS (read_csv_frame iedb_example_records)
          = true) as Hdf by (vm_compute; reflexivity).
  assert (curated_hold_strings
            (deduplicated (read_csv_frame iedb_example_records)) = true)
    as Hhs by (vm_compute; reflexivity).
  split; [exact Hdf|]. split; [exact Hhs|].
  exists ((λ ir, iedb_cell infer_locus_from_gene_names ir.2)
            <$> preprocessed ascii_string_methods
                  (read_csv_frame iedb_example_records)).
  split.
  - apply iedb_cells_ok; [intros df c H; exact H | exact Hdf | exact Hhs].
  - assert (cell_id <$> ((λ ir, iedb_cell infer_locus_from_gene_names ir.2)
                           <$> preprocessed ascii_string_methods
                                 (read_csv_frame iedb_example_records))
            = [VInt 1; VInt 2; VInt 3; VInt 4]) as E
      by (vm_compute; reflexivity).
    split; [exact E|]. rewrite E, <- (length_fmap cell_id), E.
    vm_compute. intros H. discriminate H.
Qed.
